(** * Token validation subsystem of ml-user-service

    A shallow embedding of [app/utils/auth/jwt_local_validator.py]
    (class [JWTLocalValidator]) together with the library behaviour it
    relies on, and the properties of the validator stated against it.

    Conventions.
    - A Python [str] is a Rocq [string] holding its UTF-8 bytes; [bytes]
      values are [string]s too.
    - JSON documents and the dictionaries built by the validator are values
      of type [json]; Python's [None] is [JNull].
    - Every call that may raise returns [exn + A]; stateful methods run in
      the monad [M], which threads the validator's fields and a log of the
      calls made to the outside world. *)

From Stdlib Require Import ZArith List String Ascii Bool Lia QArith DecimalString.
Import ListNotations.
Open Scope string_scope.
Open Scope Z_scope.
Set Warnings "-register-all".

(** ** Python values *)

(** JSON values as [json.loads] / [response.json()] produce them.  Numbers
    are the integers (JWT NumericDate claims, HTTP status codes); JSON
    numbers with a fractional part are outside the model. *)
Inductive json : Type :=
| JNull
| JBool (b : bool)
| JInt (n : Z)
| JStr (s : string)
| JList (l : list json)
| JObj (o : list (string * json)).

(** A Python [dict] with string keys: the first binding of a key is the one
    looked up. *)
Definition dict : Type := list (string * json).

Fixpoint dict_lookup (d : dict) (k : string) : option json :=
  match d with
  | [] => None
  | (k', v) :: d' => if String.eqb k k' then Some v else dict_lookup d' k
  end.

(** [k in d] *)
Definition dict_mem (d : dict) (k : string) : bool :=
  match dict_lookup d k with Some _ => true | None => false end.

(** [d.get(k, default)] *)
Definition dict_get_default (d : dict) (k : string) (default : json) : json :=
  match dict_lookup d k with Some v => v | None => default end.

(** [d.get(k)] *)
Definition dict_get (d : dict) (k : string) : json := dict_get_default d k JNull.

(** Truth value of an object in a boolean context. *)
Definition truthy (v : json) : bool :=
  match v with
  | JNull => false
  | JBool b => b
  | JInt n => negb (n =? 0)
  | JStr s => negb (String.eqb s EmptyString)
  | JList l => match l with [] => false | _ => true end
  | JObj o => match o with [] => false | _ => true end
  end.

(** [v == s] for a string literal [s]. *)
Definition py_eq_str (v : json) (s : string) : bool :=
  match v with
  | JStr t => String.eqb t s
  | _ => false
  end.

(** [isinstance(v, list)] *)
Definition is_list (v : json) : bool :=
  match v with JList _ => true | _ => false end.

(** [v is None] *)
Definition is_None (v : json) : bool :=
  match v with JNull => true | _ => false end.

(** The integer a value stands for in arithmetic ([bool] is a subclass of
    [int]); [None] for values that are not numbers. *)
Definition as_int (v : json) : option Z :=
  match v with
  | JInt n => Some n
  | JBool true => Some 1
  | JBool false => Some 0
  | _ => None
  end.

(** [str(n)] for an integer. *)
Definition string_of_Z (z : Z) : string := NilZero.string_of_int (Z.to_int z).

(** ** Exceptions *)

(** The exceptions the validator distinguishes: its own
    [JWTValidationError], the library's [JWTError], and any other subclass
    of [Exception], kept with its class name and message. *)
Inductive exn : Type :=
| JWTValidationError (message error_code : string) (details : json)
| JWTError (message : string)
| Exception (name message : string).

(** [JWTValidationError.__init__]: [self.details = details or {}]. *)
Definition mk_JWTValidationError (message error_code : string) (details : json) : exn :=
  JWTValidationError message error_code (if truthy details then details else JObj []).

(** [str(e)] *)
Definition exn_str (e : exn) : string :=
  match e with
  | JWTValidationError m _ _ => m
  | JWTError m => m
  | Exception _ m => m
  end.

Definition AttributeError (m : string) : exn := Exception "AttributeError" m.
Definition TypeError (m : string) : exn := Exception "TypeError" m.
Definition ValueError (m : string) : exn := Exception "ValueError" m.

(** [v.get(k, default)]: only a dict has the method. *)
Definition py_get (v : json) (k : string) (default : json) : exn + json :=
  match v with
  | JObj o => inr (dict_get_default o k default)
  | _ => inl (AttributeError "object has no attribute 'get'")
  end.

Fixpoint chars (s : string) : list json :=
  match s with
  | EmptyString => []
  | String c s' => JStr (String c EmptyString) :: chars s'
  end.

(** The elements a [for] loop visits. *)
Definition py_iter (v : json) : exn + list json :=
  match v with
  | JList l => inr l
  | JObj o => inr (map (fun kv => JStr (fst kv)) o)
  | JStr s => inr (chars s)
  | _ => inl (TypeError "object is not iterable")
  end.

(** [prefix p s]: [s] starts with [p]. *)
Fixpoint prefix (p s : string) : bool :=
  match p, s with
  | EmptyString, _ => true
  | String a p', String b s' => Ascii.eqb a b && prefix p' s'
  | String _ _, EmptyString => false
  end.

(** [p in s] for two strings: [p] occurs in [s]. *)
Fixpoint substring_of (p s : string) : bool :=
  prefix p s ||
  match s with
  | EmptyString => false
  | String _ s' => substring_of p s'
  end.

(** [x in container] for a string [x]. *)
Definition py_in (x : string) (container : json) : exn + bool :=
  match container with
  | JList l => inr (existsb (fun v => py_eq_str v x) l)
  | JObj o => inr (dict_mem o x)
  | JStr s => inr (substring_of x s)
  | _ => inl (TypeError "argument is not iterable")
  end.

(** ** Strings *)

(** [s.rstrip(c)] for a one-character set. *)
Fixpoint rstrip (c : ascii) (s : string) : string :=
  match s with
  | EmptyString => EmptyString
  | String x s' =>
      match rstrip c s' with
      | EmptyString => if Ascii.eqb x c then EmptyString else String x EmptyString
      | r => String x r
      end
  end.

(** [c * n] *)
Fixpoint repeat_char (c : ascii) (n : nat) : string :=
  match n with
  | O => EmptyString
  | S n' => String c (repeat_char c n')
  end.

Fixpoint string_map (f : ascii -> ascii) (s : string) : string :=
  match s with
  | EmptyString => EmptyString
  | String c s' => String (f c) (string_map f s')
  end.

Fixpoint string_forall (p : ascii -> bool) (s : string) : bool :=
  match s with
  | EmptyString => true
  | String c s' => p c && string_forall p s'
  end.

(** ** The [base64] module *)

(** A base64 digit carries six bits, most significant first. *)
Definition sextet : Type := (bool * bool * bool * bool * bool * bool)%type.

Definition bit (b : bool) : nat := if b then 1%nat else 0%nat.

Definition sextet_value (s : sextet) : nat :=
  let '(b5, b4, b3, b2, b1, b0) := s in
  (32 * bit b5 + 16 * bit b4 + 8 * bit b3 + 4 * bit b2 + 2 * bit b1 + bit b0)%nat.

Definition sextet_of_value (n : nat) : sextet :=
  (Nat.testbit n 5, Nat.testbit n 4, Nat.testbit n 3,
   Nat.testbit n 2, Nat.testbit n 1, Nat.testbit n 0).

Definition b64_alphabet : string :=
  "ABCDEFGHIJKLMNOPQRSTUVWXYZabcdefghijklmnopqrstuvwxyz0123456789+/".

Definition BASE64_PAD : ascii := "="%char.

Definition table_b2a_base64 (s : sextet) : ascii :=
  match String.get (sextet_value s) b64_alphabet with
  | Some c => c
  | None => BASE64_PAD
  end.

Fixpoint index_of (c : ascii) (s : string) : option nat :=
  match s with
  | EmptyString => None
  | String x s' =>
      if Ascii.eqb c x then Some O
      else match index_of c s' with Some i => Some (S i) | None => None end
  end.

Definition table_a2b_base64 (c : ascii) : option sextet :=
  match index_of c b64_alphabet with
  | Some i => Some (sextet_of_value i)
  | None => None
  end.

(** [binascii.b2a_base64(data, newline=False)]: three bytes give four
    digits; a final group of one or two bytes is padded with [=]. *)
Fixpoint b2a_base64 (data : string) : string :=
  match data with
  | EmptyString => EmptyString
  | String (Ascii x0 x1 x2 x3 x4 x5 x6 x7) EmptyString =>
      String (table_b2a_base64 (x7, x6, x5, x4, x3, x2))
     (String (table_b2a_base64 (x1, x0, false, false, false, false))
     (String BASE64_PAD (String BASE64_PAD EmptyString)))
  | String (Ascii x0 x1 x2 x3 x4 x5 x6 x7)
      (String (Ascii y0 y1 y2 y3 y4 y5 y6 y7) EmptyString) =>
      String (table_b2a_base64 (x7, x6, x5, x4, x3, x2))
     (String (table_b2a_base64 (x1, x0, y7, y6, y5, y4))
     (String (table_b2a_base64 (y3, y2, y1, y0, false, false))
     (String BASE64_PAD EmptyString)))
  | String (Ascii x0 x1 x2 x3 x4 x5 x6 x7)
      (String (Ascii y0 y1 y2 y3 y4 y5 y6 y7)
         (String (Ascii z0 z1 z2 z3 z4 z5 z6 z7) rest)) =>
      String (table_b2a_base64 (x7, x6, x5, x4, x3, x2))
     (String (table_b2a_base64 (x1, x0, y7, y6, y5, y4))
     (String (table_b2a_base64 (y3, y2, y1, y0, z7, z6))
     (String (table_b2a_base64 (z5, z4, z3, z2, z1, z0))
     (b2a_base64 rest))))
  end.

(** Decoder state: the position in the current group of four digits and
    the bits of that group not yet written out ([quad_pos] and [leftchar]
    of [binascii.a2b_base64]). *)
Inductive quad : Type :=
| Quad0
| Quad1 (left : sextet)
| Quad2 (left : bool * bool * bool * bool)
| Quad3 (left : bool * bool).

Definition binascii_Error (m : string) : exn := Exception "binascii.Error" m.

Definition emit (c : ascii) (r : exn + string) : exn + string :=
  match r with
  | inr s => inr (String c s)
  | inl e => inl e
  end.

(** [binascii.a2b_base64(data)] with [strict_mode=False]: characters outside
    the alphabet are skipped; a [=] is skipped unless it completes the
    padding of a group holding two or three digits, where decoding stops;
    input that ends inside a group is an error (the count of data characters
    that CPython puts into the first message is left out). *)
Fixpoint a2b_base64_loop (data : string) (q : quad) (pads : nat) : exn + string :=
  match data with
  | EmptyString =>
      match q with
      | Quad0 => inr EmptyString
      | Quad1 _ => inl (binascii_Error
          "Invalid base64-encoded string: number of data characters cannot be 1 more than a multiple of 4")
      | _ => inl (binascii_Error "Incorrect padding")
      end
  | String c data' =>
      if Ascii.eqb c BASE64_PAD then
        match q with
        | Quad0 | Quad1 _ => a2b_base64_loop data' q pads
        | Quad2 _ =>
            if (4 <=? 2 + S pads)%nat then inr EmptyString
            else a2b_base64_loop data' q (S pads)
        | Quad3 _ =>
            if (4 <=? 3 + S pads)%nat then inr EmptyString
            else a2b_base64_loop data' q (S pads)
        end
      else
        match table_a2b_base64 c with
        | None => a2b_base64_loop data' q pads
        | Some (v5, v4, v3, v2, v1, v0) =>
            match q with
            | Quad0 => a2b_base64_loop data' (Quad1 (v5, v4, v3, v2, v1, v0)) O
            | Quad1 (l5, l4, l3, l2, l1, l0) =>
                emit (Ascii v4 v5 l0 l1 l2 l3 l4 l5)
                     (a2b_base64_loop data' (Quad2 (v3, v2, v1, v0)) O)
            | Quad2 (l3, l2, l1, l0) =>
                emit (Ascii v2 v3 v4 v5 l0 l1 l2 l3)
                     (a2b_base64_loop data' (Quad3 (v1, v0)) O)
            | Quad3 (l1, l0) =>
                emit (Ascii v0 v1 v2 v3 v4 v5 l0 l1)
                     (a2b_base64_loop data' Quad0 O)
            end
        end
  end.

Definition a2b_base64 (data : string) : exn + string :=
  a2b_base64_loop data Quad0 O.

Definition is_ascii (c : ascii) : bool :=
  let '(Ascii _ _ _ _ _ _ _ b7) := c in negb b7.

Definition _urlsafe_encode_translation (c : ascii) : ascii :=
  if Ascii.eqb c "+"%char then "-"%char
  else if Ascii.eqb c "/"%char then "_"%char
  else c.

Definition _urlsafe_decode_translation (c : ascii) : ascii :=
  if Ascii.eqb c "-"%char then "+"%char
  else if Ascii.eqb c "_"%char then "/"%char
  else c.

(** [base64.urlsafe_b64encode(s)] *)
Definition urlsafe_b64encode (s : string) : string :=
  string_map _urlsafe_encode_translation (b2a_base64 s).

(** [base64.urlsafe_b64decode(s)] for a [str] argument: a non-ASCII string
    is refused, then [-] and [_] are mapped to [+] and [/] and the result is
    decoded leniently. *)
Definition urlsafe_b64decode (s : string) : exn + string :=
  if string_forall is_ascii s
  then a2b_base64 (string_map _urlsafe_decode_translation s)
  else inl (ValueError "string argument should contain only ASCII characters").

(** The padding step of [verify_token]:
    [k += "=" * (4 - len(k) % 4)].  [len] counts code points and
    [String.length] bytes; they agree on ASCII strings, and a string with a
    non-ASCII character is refused by [urlsafe_b64decode] whatever its
    padding. *)
Definition pad_k (k : string) : string :=
  k ++ repeat_char "="%char (4 - String.length k mod 4)%nat.

(** The value [k] that [_get_local_jwks] publishes for a secret:
    [base64.urlsafe_b64encode(secret.encode("utf-8")).decode("utf-8").rstrip("=")]. *)
Definition local_jwks_k (secret : string) : string :=
  rstrip "="%char (urlsafe_b64encode secret).

(** [bytes.decode("utf-8")]: the well-formed byte sequences of the Unicode
    standard (no overlong forms, no surrogates, nothing above U+10FFFF). *)
Definition byte_in (lo hi : nat) (c : ascii) : bool :=
  ((lo <=? nat_of_ascii c) && (nat_of_ascii c <=? hi))%nat.

Definition utf8_tail (c : ascii) : bool := byte_in 128 191 c.

Fixpoint utf8_valid (s : string) : bool :=
  match s with
  | EmptyString => true
  | String a r1 =>
      if byte_in 0 127 a then utf8_valid r1
      else
        match r1 with
        | EmptyString => false
        | String b r2 =>
            if byte_in 194 223 a then utf8_tail b && utf8_valid r2
            else
              match r2 with
              | EmptyString => false
              | String c r3 =>
                  if byte_in 224 224 a && byte_in 160 191 b
                     || byte_in 225 236 a && utf8_tail b
                     || byte_in 237 237 a && byte_in 128 159 b
                     || byte_in 238 239 a && utf8_tail b
                  then utf8_tail c && utf8_valid r3
                  else
                    match r3 with
                    | EmptyString => false
                    | String d r4 =>
                        (byte_in 240 240 a && byte_in 144 191 b
                         || byte_in 241 243 a && utf8_tail b
                         || byte_in 244 244 a && byte_in 128 143 b)
                        && utf8_tail c && utf8_tail d && utf8_valid r4
                    end
              end
        end
  end.

Definition decode_utf8 (b : string) : exn + string :=
  if utf8_valid b then inr b
  else inl (Exception "UnicodeDecodeError" "'utf-8' codec can't decode bytes").

(** ** Configuration and the outside world *)

(** The fields of [app.config.settings.Settings] the validator reads. *)
Record Settings : Type := {
  jwt_secret_key : string;
  jwt_algorithm : string;
  app_name : string;
  auth_use_local_jwt : bool;
  auth_user_service_url : option string;
  auth_jwks_endpoint : string;
  auth_jwt_config_endpoint : string;
  auth_blacklist_endpoint : string
}.

(** A naive [datetime]: microseconds since the epoch. *)
Definition datetime : Type := Z.

(** An [httpx.Response]: its status code and what [response.json()] gives. *)
Inductive response : Type :=
| Response (status_code : Z) (json_body : exn + json).

(** What the validator obtains from outside itself during one call: the
    settings singleton, the clock, the HTTP client, python-jose, hashlib and
    the issuing service's [JWTService] (whose module is not part of the
    sources at hand, so its answer is taken as given). *)
Record World : Type := {
  settings : Settings;
  (** [datetime.utcnow()] *)
  utcnow : datetime;
  (** [d.timestamp()], seconds as the exact value of the float *)
  timestamp : datetime -> Q;
  (** [datetime.fromtimestamp(n)]; raises outside the platform's range *)
  fromtimestamp : Z -> exn + datetime;
  (** [client.get(url)]; raises on a transport error *)
  client_get : string -> exn + response;
  (** [jwt.decode(token, key, algorithms=[algorithm], issuer=issuer,
      audience=audience, options=...)] with every verification switched on *)
  jwt_decode : string -> string -> json -> json -> json -> exn + dict;
  (** [jwt.decode(token, options={"verify_signature": False})] *)
  jwt_decode_unverified : string -> exn + dict;
  (** [hashlib.sha256(token.encode()).hexdigest()] *)
  sha256_hexdigest : string -> string;
  (** [await JWTService.is_blacklisted(token)] *)
  JWTService_is_blacklisted : string -> exn + bool
}.

(** Calls that leave the validator, in the order they are made. *)
Inductive event : Type :=
| HttpGet (url : string)
| JwtDecode (token : string)
| BlacklistStoreQuery (token : string)
| Log (level message : string).

(** ** The validator object *)

Record JWTLocalValidator : Type := {
  use_local : bool;
  user_service_url : string;
  cache_ttl : Z;
  blacklist_cache_ttl : Z;
  _jwks_cache : json;
  _jwks_cache_time : option datetime;
  _config_cache : json;
  _config_cache_time : option datetime;
  _blacklist_cache : json;
  _blacklist_cache_time : option datetime;
  (** [true] when an [httpx.Client] is held *)
  _client : bool
}.

Definition set_jwks_cache (v : json) (t : option datetime) (self : JWTLocalValidator) :=
  {| use_local := use_local self; user_service_url := user_service_url self;
     cache_ttl := cache_ttl self; blacklist_cache_ttl := blacklist_cache_ttl self;
     _jwks_cache := v; _jwks_cache_time := t;
     _config_cache := _config_cache self; _config_cache_time := _config_cache_time self;
     _blacklist_cache := _blacklist_cache self;
     _blacklist_cache_time := _blacklist_cache_time self;
     _client := _client self |}.

Definition set_config_cache (v : json) (t : option datetime) (self : JWTLocalValidator) :=
  {| use_local := use_local self; user_service_url := user_service_url self;
     cache_ttl := cache_ttl self; blacklist_cache_ttl := blacklist_cache_ttl self;
     _jwks_cache := _jwks_cache self; _jwks_cache_time := _jwks_cache_time self;
     _config_cache := v; _config_cache_time := t;
     _blacklist_cache := _blacklist_cache self;
     _blacklist_cache_time := _blacklist_cache_time self;
     _client := _client self |}.

Definition set_blacklist_cache (v : json) (t : option datetime) (self : JWTLocalValidator) :=
  {| use_local := use_local self; user_service_url := user_service_url self;
     cache_ttl := cache_ttl self; blacklist_cache_ttl := blacklist_cache_ttl self;
     _jwks_cache := _jwks_cache self; _jwks_cache_time := _jwks_cache_time self;
     _config_cache := _config_cache self; _config_cache_time := _config_cache_time self;
     _blacklist_cache := v; _blacklist_cache_time := t;
     _client := _client self |}.

Definition set_client (c : bool) (self : JWTLocalValidator) :=
  {| use_local := use_local self; user_service_url := user_service_url self;
     cache_ttl := cache_ttl self; blacklist_cache_ttl := blacklist_cache_ttl self;
     _jwks_cache := _jwks_cache self; _jwks_cache_time := _jwks_cache_time self;
     _config_cache := _config_cache self; _config_cache_time := _config_cache_time self;
     _blacklist_cache := _blacklist_cache self;
     _blacklist_cache_time := _blacklist_cache_time self;
     _client := c |}.

(** ** The monad of methods *)

Definition store : Type := (JWTLocalValidator * list event)%type.

Definition M (A : Type) : Type := store -> (exn + A) * store.

Definition ret {A : Type} (a : A) : M A := fun s => (inr a, s).

Definition raise {A : Type} (e : exn) : M A := fun s => (inl e, s).

Definition bind {A B : Type} (c : M A) (k : A -> M B) : M B :=
  fun s =>
    match c s with
    | (inr a, s') => k a s'
    | (inl e, s') => (inl e, s')
    end.

Notation "x <- c1 ;; c2" := (bind c1 (fun x => c2))
  (at level 61, c1 at next level, right associativity).
Notation "c1 ;; c2" := (bind c1 (fun _ => c2))
  (at level 61, right associativity).

(** [try: c  except Exception as e: h e]; a handler for a narrower class
    re-raises what it does not match.  Whatever [c] did to the validator
    before raising stays done. *)
Definition try_except {A : Type} (c : M A) (h : exn -> M A) : M A :=
  fun s =>
    match c s with
    | (inr a, s') => (inr a, s')
    | (inl e, s') => h e s'
    end.

Definition lift {A : Type} (r : exn + A) : M A :=
  match r with
  | inr a => ret a
  | inl e => raise e
  end.

Definition get_self : M JWTLocalValidator := fun s => (inr (fst s), s).

Definition modify_self (f : JWTLocalValidator -> JWTLocalValidator) : M unit :=
  fun s => (inr tt, (f (fst s), snd s)).

Definition tell (e : event) : M unit :=
  fun s => (inr tt, (fst s, (snd s ++ [e])%list)).

(** [logging.warning(m)], [logging.error(m)] *)
Definition logging (level m : string) : M unit := tell (Log level m).

(** [x > n] for a float [x] and an integer [n]. *)
Definition Qgtb (x : Q) (n : Z) : bool := negb (Qle_bool x (inject_Z n)).

Section Validator.

Variable w : World.

(** [JWTLocalValidator.__init__] *)
Definition init (cache_ttl blacklist_cache_ttl : Z) (use_local : option bool)
  : JWTLocalValidator :=
  let local :=
    match use_local with
    | Some b => b
    | None => auth_use_local_jwt (settings w)
    end in
  {| use_local := local;
     user_service_url :=
       if negb local
       then rstrip "/"%char
              (match auth_user_service_url (settings w) with
               | Some u => u
               | None => EmptyString
               end)
       else EmptyString;
     cache_ttl := cache_ttl;
     blacklist_cache_ttl := blacklist_cache_ttl;
     _jwks_cache := JNull;
     _jwks_cache_time := None;
     _config_cache := JNull;
     _config_cache_time := None;
     _blacklist_cache := JNull;
     _blacklist_cache_time := None;
     _client := false |}.

(** [JWTLocalValidator()] with the default arguments. *)
Definition default_validator : JWTLocalValidator := init 3600 300 None.

Definition _get_client : M unit :=
  self <- get_self ;;
  if _client self then ret tt else modify_self (set_client true).

Definition http_get (url : string) : M response :=
  tell (HttpGet url) ;; lift (client_get w url).

Definition _get_local_config : dict :=
  [ ("algorithm", JStr (jwt_algorithm (settings w)));
    ("issuer", JStr (app_name (settings w)));
    ("audience", JStr "microservices") ].

Definition _get_local_jwks : json :=
  let k := local_jwks_k (jwt_secret_key (settings w)) in
  JObj [ ("keys", JList [ JObj [ ("kty", JStr "oct");
                                 ("k", JStr k);
                                 ("alg", JStr (jwt_algorithm (settings w)));
                                 ("use", JStr "sig");
                                 ("kid", JStr "user-service-key-1") ] ]) ].

Definition _is_cache_valid (cache_time : option datetime) : M bool :=
  self <- get_self ;;
  match cache_time with
  | None => ret false
  | Some t => ret (utcnow w - t <? cache_ttl self * 1000000)
  end.

Definition _fetch_jwks : M json :=
  try_except
    (_get_client ;;
     self <- get_self ;;
     let url := user_service_url self ++ auth_jwks_endpoint (settings w) in
     r <- http_get url ;;
     let '(Response status_code body) := r in
     if status_code =? 200 then lift body
     else raise (mk_JWTValidationError
                   ("获取JWKS失败: " ++ string_of_Z status_code)
                   "JWKS_FETCH_ERROR"
                   (JObj [("status_code", JInt status_code); ("url", JStr url)])))
    (fun e =>
       match e with
       | JWTValidationError _ _ _ => raise e
       | _ =>
           logging "error" ("获取JWKS异常: " ++ exn_str e) ;;
           raise (mk_JWTValidationError ("获取JWKS异常: " ++ exn_str e)
                    "JWKS_FETCH_EXCEPTION" JNull)
       end).

Definition _fetch_jwt_config : M json :=
  try_except
    (_get_client ;;
     self <- get_self ;;
     let url := user_service_url self ++ auth_jwt_config_endpoint (settings w) in
     r <- http_get url ;;
     let '(Response status_code body) := r in
     if status_code =? 200 then
       result <- lift body ;;
       lift (py_get result "data" result)
     else raise (mk_JWTValidationError
                   ("获取JWT配置失败: " ++ string_of_Z status_code)
                   "CONFIG_FETCH_ERROR"
                   (JObj [("status_code", JInt status_code); ("url", JStr url)])))
    (fun e =>
       match e with
       | JWTValidationError _ _ _ => raise e
       | _ =>
           logging "error" ("获取JWT配置异常: " ++ exn_str e) ;;
           raise (mk_JWTValidationError ("获取JWT配置异常: " ++ exn_str e)
                    "CONFIG_FETCH_EXCEPTION" JNull)
       end).

Definition _fetch_blacklist : M json :=
  try_except
    (_get_client ;;
     self <- get_self ;;
     let url := user_service_url self ++ auth_blacklist_endpoint (settings w) in
     r <- http_get url ;;
     let '(Response status_code body) := r in
     if status_code =? 200 then
       result <- lift body ;;
       data <- lift (py_get result "data" (JObj [])) ;;
       lift (py_get data "blacklisted_tokens" (JList []))
     else
       logging "warning" ("获取黑名单失败: " ++ string_of_Z status_code) ;;
       ret (JList []))
    (fun e =>
       logging "error" ("获取黑名单异常: " ++ exn_str e) ;;
       ret (JList [])).

Definition _get_blacklist_cache : M json :=
  self <- get_self ;;
  valid <- _is_cache_valid (_blacklist_cache_time self) ;;
  (if negb valid then
     fetched <- _fetch_blacklist ;;
     modify_self (fun self => set_blacklist_cache fetched (_blacklist_cache_time self) self) ;;
     modify_self (fun self => set_blacklist_cache (_blacklist_cache self) (Some (utcnow w)) self)
   else ret tt) ;;
  self <- get_self ;;
  ret (if truthy (_blacklist_cache self) then _blacklist_cache self else JList []).

Definition _is_token_blacklisted (token : string) : M bool :=
  try_except
    (blacklist <- _get_blacklist_cache ;;
     let token_hash := sha256_hexdigest w token in
     lift (py_in token_hash blacklist))
    (fun e =>
       logging "error" ("检查黑名单异常: " ++ exn_str e) ;;
       ret false).

Definition get_jwks : M json :=
  self <- get_self ;;
  if use_local self then ret _get_local_jwks
  else
    valid <- _is_cache_valid (_jwks_cache_time self) ;;
    (if negb valid then
       fetched <- _fetch_jwks ;;
       modify_self (fun self => set_jwks_cache fetched (_jwks_cache_time self) self) ;;
       modify_self (fun self => set_jwks_cache (_jwks_cache self) (Some (utcnow w)) self)
     else ret tt) ;;
    self <- get_self ;;
    ret (_jwks_cache self).

Definition get_jwt_config : M json :=
  self <- get_self ;;
  if use_local self then ret (JObj _get_local_config)
  else
    valid <- _is_cache_valid (_config_cache_time self) ;;
    (if negb valid then
       fetched <- _fetch_jwt_config ;;
       modify_self (fun self => set_config_cache fetched (_config_cache_time self) self) ;;
       modify_self (fun self => set_config_cache (_config_cache self) (Some (utcnow w)) self)
     else ret tt) ;;
    self <- get_self ;;
    ret (_config_cache self).

Fixpoint check_required_fields (required_fields : list string) (payload : dict)
  : exn + unit :=
  match required_fields with
  | [] => inr tt
  | field :: rest =>
      if negb (dict_mem payload field) then
        inl (mk_JWTValidationError
               ("令牌缺少必需字段: " ++ field)
               "MISSING_REQUIRED_FIELD"
               (JObj [("missing_field", JStr field)]))
      else check_required_fields rest payload
  end.

Definition _validate_payload_fields (payload : dict) : exn + unit :=
  match check_required_fields ["sub"; "username"; "roles"] payload with
  | inl e => inl e
  | inr _ =>
      if negb (is_list (dict_get payload "roles")) then
        inl (mk_JWTValidationError
               "roles字段必须是数组类型"
               "INVALID_FIELD_TYPE"
               (JObj [("field", JStr "roles"); ("expected_type", JStr "list")]))
      else if negb (truthy (dict_get_default payload "is_active" (JBool true))) then
        inl (mk_JWTValidationError
               "用户账户已被禁用"
               "USER_INACTIVE"
               (JObj [("user_id", dict_get payload "sub")]))
      else inr tt
  end.

(** The key-selection loop of [verify_token]: the first key whose [kty] is
    ["oct"] is decoded and ends the loop; [JNull] when no key is selected. *)
Fixpoint select_secret_key (keys : list json) : exn + json :=
  match keys with
  | [] => inr JNull
  | key :: rest =>
      match py_get key "kty" JNull with
      | inl e => inl e
      | inr kty =>
          if py_eq_str kty "oct" then
            match py_get key "k" (JStr EmptyString) with
            | inl e => inl e
            | inr (JStr k) =>
                match urlsafe_b64decode (pad_k k) with
                | inl e => inl e
                | inr raw =>
                    match decode_utf8 raw with
                    | inl e => inl e
                    | inr secret_key => inr (JStr secret_key)
                    end
                end
            | inr _ => inl (TypeError "k is not a string")
            end
          else select_secret_key rest
      end
  end.

(** The result dictionaries. *)
Definition use_async_result : json :=
  JObj [ ("success", JBool false);
         ("message", JStr "本机模式请使用 verify_token_async");
         ("data", JObj [ ("valid", JBool false);
                         ("reason", JStr "use_async");
                         ("error_code", JStr "USE_VERIFY_TOKEN_ASYNC") ]) ].

Definition no_key_result : json :=
  JObj [ ("success", JBool false);
         ("message", JStr "无法获取验证密钥");
         ("data", JObj [ ("valid", JBool false);
                         ("reason", JStr "no_key");
                         ("error_code", JStr "NO_SECRET_KEY") ]) ].

Definition wrong_token_type_result (token_type : json) : json :=
  JObj [ ("success", JBool false);
         ("message", JStr "令牌类型错误");
         ("data", JObj [ ("valid", JBool false);
                         ("reason", JStr "wrong_token_type");
                         ("error_code", JStr "INVALID_TOKEN_TYPE");
                         ("expected_type", JStr "access");
                         ("actual_type", token_type) ]) ].

Definition token_blacklisted_result : json :=
  JObj [ ("success", JBool false);
         ("message", JStr "令牌已被注销");
         ("data", JObj [ ("valid", JBool false);
                         ("reason", JStr "token_blacklisted");
                         ("error_code", JStr "TOKEN_BLACKLISTED") ]) ].

Definition success_result (payload : dict) : json :=
  JObj [ ("success", JBool true);
         ("message", JStr "令牌验证成功");
         ("data", JObj [ ("valid", JBool true);
                         ("user_id", dict_get payload "sub");
                         ("username", dict_get payload "username");
                         ("roles", dict_get_default payload "roles" (JList []));
                         ("email", dict_get payload "email");
                         ("phone", dict_get payload "phone");
                         ("full_name", dict_get payload "full_name");
                         ("is_superuser", dict_get_default payload "is_superuser" (JBool false));
                         ("is_active", dict_get_default payload "is_active" (JBool true));
                         ("exp", dict_get payload "exp");
                         ("iat", dict_get payload "iat");
                         ("iss", dict_get payload "iss");
                         ("aud", dict_get payload "aud") ]) ].

(** The three [except] clauses that close [verify_token] and
    [_verify_token_local_async]. *)
Definition verification_handlers (e : exn) : M json :=
  match e with
  | JWTValidationError message error_code details =>
      logging "warning"
        ("JWT验证失败: " ++ message ++ " (错误码: " ++ error_code ++ ")") ;;
      ret (JObj [ ("success", JBool false);
                  ("message", JStr message);
                  ("data", JObj [ ("valid", JBool false);
                                  ("reason", JStr "validation_error");
                                  ("error_code", JStr error_code);
                                  ("details", details) ]) ])
  | JWTError _ =>
      logging "warning" ("JWT解析失败: " ++ exn_str e) ;;
      ret (JObj [ ("success", JBool false);
                  ("message", JStr ("JWT验证失败: " ++ exn_str e));
                  ("data", JObj [ ("valid", JBool false);
                                  ("reason", JStr "jwt_error");
                                  ("error_code", JStr "JWT_DECODE_ERROR") ]) ])
  | Exception _ _ =>
      logging "error" ("令牌验证异常: " ++ exn_str e) ;;
      ret (JObj [ ("success", JBool false);
                  ("message", JStr ("令牌验证异常: " ++ exn_str e));
                  ("data", JObj [ ("valid", JBool false);
                                  ("reason", JStr "exception");
                                  ("error_code", JStr "VALIDATION_EXCEPTION") ]) ])
  end.

(** [token_type and token_type != "access"] *)
Definition wrong_token_type (token_type : json) : bool :=
  truthy token_type && negb (py_eq_str token_type "access").

(** The checks both entry points run once the key is known: decoding with
    every verification on, the payload fields, the token type, and last the
    blacklist, which [is_blacklisted] consults. *)
Definition check_token (is_blacklisted : string -> M bool)
    (token secret_key : string) (algorithm issuer audience : json) : M json :=
  tell (JwtDecode token) ;;
  payload <- lift (jwt_decode w token secret_key algorithm issuer audience) ;;
  lift (_validate_payload_fields payload) ;;
  let token_type := dict_get payload "type" in
  if wrong_token_type token_type then ret (wrong_token_type_result token_type)
  else
    blacklisted <- is_blacklisted token ;;
    if blacklisted then ret token_blacklisted_result
    else ret (success_result payload).

(** The first part of the [try] block of [verify_token]: configuration, key
    set and key selection.  Gives [algorithm], [issuer], [audience] and
    [secret_key]. *)
Definition verify_token_trust_material : M (json * json * json * json) :=
  config <- get_jwt_config ;;
  algorithm <- lift (py_get config "algorithm" (JStr "HS256")) ;;
  issuer <- lift (py_get config "issuer" JNull) ;;
  audience <- lift (py_get config "audience" JNull) ;;
  jwks <- get_jwks ;;
  keys <- lift (py_get jwks "keys" (JList [])) ;;
  keys <- lift (py_iter keys) ;;
  secret_key <- lift (select_secret_key keys) ;;
  ret (algorithm, issuer, audience, secret_key).

(** The [try] block of [verify_token]. *)
Definition verify_token_try (token : string) : M json :=
  material <- verify_token_trust_material ;;
  let '(algorithm, issuer, audience, secret_key) := material in
  match secret_key with
  | JStr (String c k) =>
      check_token _is_token_blacklisted token (String c k) algorithm issuer audience
  | _ => ret no_key_result
  end.

Definition verify_token (token : string) : M json :=
  self <- get_self ;;
  if use_local self then ret use_async_result
  else try_except (verify_token_try token) verification_handlers.

(** [await JWTService.is_blacklisted(token)] *)
Definition store_is_blacklisted (token : string) : M bool :=
  tell (BlacklistStoreQuery token) ;;
  lift (JWTService_is_blacklisted w token).

(** The [try] block of [_verify_token_local_async]. *)
Definition _verify_token_local_async_try (token : string) : M json :=
  let config := JObj _get_local_config in
  algorithm <- lift (py_get config "algorithm" (JStr "HS256")) ;;
  issuer <- lift (py_get config "issuer" JNull) ;;
  audience <- lift (py_get config "audience" JNull) ;;
  let secret_key := jwt_secret_key (settings w) in
  check_token store_is_blacklisted token secret_key algorithm issuer audience.

Definition _verify_token_local_async (token : string) : M json :=
  try_except (_verify_token_local_async_try token) verification_handlers.

(** In the remote mode the blocking [verify_token] is run on the default
    executor and its result awaited. *)
Definition verify_token_async (token : string) : M json :=
  self <- get_self ;;
  if use_local self then _verify_token_local_async token
  else verify_token token.

Definition is_token_expired (token : string) : M bool :=
  try_except
    (tell (JwtDecode token) ;;
     payload <- lift (jwt_decode_unverified w token) ;;
     let exp := dict_get payload "exp" in
     if is_None exp then ret true
     else
       let current_time := timestamp w (utcnow w) in
       match as_int exp with
       | Some n => ret (Qgtb current_time n)
       | None => raise (TypeError "'>' not supported between instances of 'float' and exp")
       end)
    (fun e =>
       match e with
       | JWTError _ => ret true
       | _ => raise e
       end).

Definition get_token_expiry (token : string) : M (option datetime) :=
  try_except
    (tell (JwtDecode token) ;;
     payload <- lift (jwt_decode_unverified w token) ;;
     let exp := dict_get payload "exp" in
     if is_None exp then ret None
     else
       match as_int exp with
       | Some n => d <- lift (fromtimestamp w n) ;; ret (Some d)
       | None => raise (TypeError "an integer is required")
       end)
    (fun e =>
       match e with
       | JWTError _ => ret None
       | _ => raise e
       end).

Definition refresh_cache : M unit :=
  modify_self (set_jwks_cache JNull None) ;;
  modify_self (set_config_cache JNull None) ;;
  modify_self (set_blacklist_cache JNull None).

Definition refresh_blacklist_cache : M unit :=
  modify_self (set_blacklist_cache JNull None).

End Validator.

(** ** Vocabulary of the properties *)

(** The digit [urlsafe_b64encode] writes for six bits. *)
Definition urlsafe_digit (s : sextet) : ascii :=
  _urlsafe_encode_translation (table_b2a_base64 s).

(** Whether a cache stamped [cache_time] is fresh for [self] at the time of
    the world [w], as [_is_cache_valid] decides it. *)
Definition cache_is_valid (w : World) (self : JWTLocalValidator)
    (cache_time : option datetime) : bool :=
  match cache_time with
  | None => false
  | Some t => utcnow w - t <? cache_ttl self * 1000000
  end.

(** Age of a cache stamp in whole seconds. *)
Definition cache_age (w : World) (t : datetime) : Z := (utcnow w - t) / 1000000.

Definition jwks_url (w : World) (self : JWTLocalValidator) : string :=
  user_service_url self ++ auth_jwks_endpoint (settings w).

Definition blacklist_url (w : World) (self : JWTLocalValidator) : string :=
  user_service_url self ++ auth_blacklist_endpoint (settings w).

(** The validator after [_get_client]. *)
Definition with_client (self : JWTLocalValidator) : JWTLocalValidator :=
  if _client self then self else set_client true self.

(** Fetching the revocation list fails: a transport error or a status other
    than 200. *)
Definition blacklist_fetch_fails (w : World) (self : JWTLocalValidator) : bool :=
  match client_get w (blacklist_url w self) with
  | inl _ => true
  | inr (Response status_code _) => negb (status_code =? 200)
  end.

(** [result["success"]] and [result["data"]["error_code"]] of a result
    dictionary ([JNull] where there is none). *)
Definition result_success (r : json) : json :=
  match r with
  | JObj o => dict_get o "success"
  | _ => JNull
  end.

Definition result_data (r : json) (k : string) : json :=
  match r with
  | JObj o =>
      match dict_get o "data" with
      | JObj d => dict_get d k
      | _ => JNull
      end
  | _ => JNull
  end.

Definition result_error_code (r : json) : json := result_data r "error_code".


(** The payload passes the field checks of [_validate_payload_fields] up to
    the user's state: the required fields are there and [roles] is a list. *)
Definition valid_shape (payload : dict) : bool :=
  dict_mem payload "sub" && dict_mem payload "username" && dict_mem payload "roles"
  && is_list (dict_get payload "roles").

(** [payload.get("is_active", True)] is true. *)
Definition user_active (payload : dict) : bool :=
  truthy (dict_get_default payload "is_active" (JBool true)).

(** [c] keeps the property [P] of the validator's fields, whatever it
    returns or raises. *)
Definition preserves {A : Type} (P : JWTLocalValidator -> Prop) (c : M A) : Prop :=
  forall s, P (fst s) -> P (fst (snd (c s))).

(** [P] does not depend on the held client, the one field the fetchers
    write. *)
Definition fetch_invariant (P : JWTLocalValidator -> Prop) : Prop :=
  forall v, P v -> P (set_client true v).

(** The fields fixed at construction agree. *)
Definition same_setup (a b : JWTLocalValidator) : Prop :=
  use_local a = use_local b
  /\ user_service_url a = user_service_url b
  /\ cache_ttl a = cache_ttl b
  /\ blacklist_cache_ttl a = blacklist_cache_ttl b.

Definition same_jwks_cache (a b : JWTLocalValidator) : Prop :=
  _jwks_cache a = _jwks_cache b /\ _jwks_cache_time a = _jwks_cache_time b.

Definition same_blacklist_cache (a b : JWTLocalValidator) : Prop :=
  _blacklist_cache a = _blacklist_cache b
  /\ _blacklist_cache_time a = _blacklist_cache_time b.









(** The stages before the revocation check, in the order signature, shape,
    semantics: the error code with which a decoding result is rejected
    there, and [None] when it passes on to the revocation check. *)
Definition early_stage_code (decoded : exn + dict) : option string :=
  match decoded with
  | inl (JWTError _) => Some "JWT_DECODE_ERROR"
  | inl (JWTValidationError _ error_code _) => Some error_code
  | inl (Exception _ _) => Some "VALIDATION_EXCEPTION"
  | inr payload =>
      if negb (dict_mem payload "sub" && dict_mem payload "username"
               && dict_mem payload "roles")
      then Some "MISSING_REQUIRED_FIELD"
      else if negb (is_list (dict_get payload "roles")) then Some "INVALID_FIELD_TYPE"
      else if negb (user_active payload) then Some "USER_INACTIVE"
      else if wrong_token_type (dict_get payload "type") then Some "INVALID_TOKEN_TYPE"
      else None
  end.

Definition is_log (e : event) : Prop :=
  match e with
  | Log _ _ => True
  | _ => False
  end.

(** A run that started in the store [s0] ended right after decoding the
    token: it returned a rejection with the code [code], left the validator
    as it was, and after the decoding only wrote to the log. *)
Definition rejected_after_decode (run : (exn + json) * store) (s0 : store)
    (token code : string) : Prop :=
  exists r log,
    run = (inr r, (fst s0, (snd s0 ++ JwtDecode token :: log)%list))
    /\ result_success r = JBool false
    /\ result_error_code r = JStr code
    /\ Forall is_log log.

(** What python-jose makes of a token in local mode, with the key and the
    expectations of [_get_local_config]. *)
Definition local_decoded (w : World) (token : string) : exn + dict :=
  jwt_decode w token (jwt_secret_key (settings w))
    (JStr (jwt_algorithm (settings w))) (JStr (app_name (settings w)))
    (JStr "microservices").

(** ** Sample configurations *)

Definition local_settings : Settings :=
  {| jwt_secret_key := "your-secret-key";
     jwt_algorithm := "HS256";
     app_name := "ml-user-service";
     auth_use_local_jwt := true;
     auth_user_service_url := None;
     auth_jwks_endpoint := "/api/v1/jwt/.well-known/jwks.json";
     auth_jwt_config_endpoint := "/api/v1/jwt/jwt-config";
     auth_blacklist_endpoint := "/api/v1/jwt/blacklist" |}.

Definition remote_settings : Settings :=
  {| jwt_secret_key := "your-secret-key";
     jwt_algorithm := "HS256";
     app_name := "ml-user-service";
     auth_use_local_jwt := false;
     auth_user_service_url := Some "http://issuer/";
     auth_jwks_endpoint := "/api/v1/jwt/.well-known/jwks.json";
     auth_jwt_config_endpoint := "/api/v1/jwt/jwt-config";
     auth_blacklist_endpoint := "/api/v1/jwt/blacklist" |}.

(** A world for examples: the settings, the time in seconds, the issuer's
    HTTP answers, what python-jose returns for the token at hand and what
    the revocation store answers are given; the local zone is UTC, the
    datetime range is years 1 to 9999, and the digest is a stand-in that
    only tags its argument. *)
Definition sample_world (st : Settings) (now_seconds : Z)
    (http : string -> exn + response) (decoded : exn + dict)
    (store : exn + bool) : World :=
  {| settings := st;
     utcnow := now_seconds * 1000000;
     timestamp := fun d => Qmake d 1000000;
     fromtimestamp := fun n =>
       if (-62135596800 <=? n) && (n <=? 253402300799)
       then inr (n * 1000000)
       else inl (ValueError "year is out of range");
     client_get := http;
     jwt_decode := fun _ _ _ _ _ => decoded;
     jwt_decode_unverified := fun _ => decoded;
     sha256_hexdigest := fun s => "sha256:" ++ s;
     JWTService_is_blacklisted := fun _ => store |}.

Definition no_http (url : string) : exn + response :=
  inl (Exception "ConnectError" "connection refused").

Definition issuer_config : json :=
  JObj [ ("algorithm", JStr "HS256");
         ("issuer", JStr "ml-user-service");
         ("audience", JStr "microservices") ].

(** An issuer that serves its configuration, the key set of the secret
    ["your-secret-key"] and a revocation list, each with the given status. *)
Definition issuer_http (jwks_status blacklist_status : Z) (revoked : list json)
    (url : string) : exn + response :=
  if String.eqb url "http://issuer/api/v1/jwt/jwt-config" then
    inr (Response 200 (inr (JObj [("data", issuer_config)])))
  else if String.eqb url "http://issuer/api/v1/jwt/.well-known/jwks.json" then
    inr (Response jwks_status
           (inr (JObj [("keys", JList [JObj [("kty", JStr "oct");
                                             ("k", JStr "eW91ci1zZWNyZXQta2V5")]])])))
  else if String.eqb url "http://issuer/api/v1/jwt/blacklist" then
    inr (Response blacklist_status
           (inr (JObj [("data", JObj [("blacklisted_tokens", JList revoked)])])))
  else inr (Response 404 (inl (Exception "JSONDecodeError" "Expecting value"))).

Definition alice_payload : dict :=
  [ ("sub", JStr "u1"); ("username", JStr "alice");
    ("roles", JList [JStr "admin"]); ("exp", JInt 2000003600) ].

(** The issuing service itself: local mode, the store answers. *)
Definition world_local (decoded : exn + dict) (store : exn + bool) : World :=
  sample_world local_settings 2000000000 no_http decoded store.

(** A downstream service in front of an issuer. *)
Definition world_remote (now_seconds jwks_status blacklist_status : Z)
    (revoked : list json) (decoded : exn + dict) : World :=
  sample_world remote_settings now_seconds
    (issuer_http jwks_status blacklist_status revoked) decoded (inr false).

(** The issuer's key-set endpoint answers 500. *)
Definition world_jwks_500 : World :=
  world_remote 2000000000 500 200 [] (inr alice_payload).

(** 400 seconds after the epoch the issuer lists the token ["tok"] as
    revoked; the validator still holds the list it fetched at time 0. *)
Definition world_revoked_later : World :=
  world_remote 400 200 200 [JStr "sha256:old"; JStr "sha256:tok"] (inr alice_payload).

Definition validator_with_old_blacklist : JWTLocalValidator :=
  set_blacklist_cache (JList [JStr "sha256:old"]) (Some 0)
    (default_validator world_revoked_later).

(** The validator after [refresh_blacklist_cache()]. *)
Definition refresh_blacklist_cache_of (self : JWTLocalValidator) : JWTLocalValidator :=
  fst (snd (refresh_blacklist_cache (self, []))).





(** Tokens for the stage order.  The revocation store, and the issuer's
    list, hold the token in each of these worlds. *)
Definition refresh_payload : dict :=
  (alice_payload ++ [("type", JStr "refresh")])%list.

Definition empty_type_payload : dict :=
  (alice_payload ++ [("type", JStr EmptyString)])%list.

Definition inactive_payload : dict :=
  (alice_payload ++ [("is_active", JBool false)])%list.

Definition inactive_refresh_payload : dict :=
  (alice_payload ++ [("is_active", JBool false); ("type", JStr "refresh")])%list.

Definition world_local_revoked (payload : dict) : World :=
  world_local (inr payload) (inr true).

Definition world_remote_revoked (payload : dict) : World :=
  world_remote 2000000000 200 200 [JStr "sha256:tok"] (inr payload).

(** An issuer whose revocation endpoint is down, in front of a validator
    that has never fetched the list; and an issuing service whose
    revocation store is down. *)
Definition world_blacklist_down : World :=
  world_remote 2000000000 200 503 [JStr "sha256:tok"] (inr alice_payload).

Definition world_store_down : World :=
  world_local (inr alice_payload) (inl (Exception "ConnectionError" "redis is down")).

(** ** The remaining methods *)

(** [try: c  finally: f]: [f] runs whether [c] returned or raised, and the
    outcome of [c] stands unless [f] raises itself. *)
Definition try_finally {A : Type} (c : M A) (f : M unit) : M A :=
  fun s =>
    match c s with
    | (r, s') =>
        match f s' with
        | (inr _, s'') => (r, s'')
        | (inl e, s'') => (inl e, s'')
        end
    end.

(** [a and b]: [b] is evaluated only when [a] is true. *)
Definition py_and (a : json) (b : M json) : M json :=
  if truthy a then b else ret a.

(** [JWTLocalValidator.close]: the held client, if any, is closed and
    dropped. *)
Definition close : M unit :=
  self <- get_self ;;
  if _client self then modify_self (set_client false) else ret tt.

(** [JWTLocalValidator.extract_user_info] *)
Definition extract_user_info (w : World) (token : string) : M json :=
  try_except
    (tell (JwtDecode token) ;;
     payload <- lift (jwt_decode_unverified w token) ;;
     ret (JObj [ ("success", JBool true);
                 ("message", JStr "提取用户信息成功");
                 ("data", JObj [ ("user_id", dict_get payload "sub");
                                 ("username", dict_get payload "username");
                                 ("roles", dict_get_default payload "roles" (JList []));
                                 ("email", dict_get payload "email");
                                 ("phone", dict_get payload "phone");
                                 ("full_name", dict_get payload "full_name");
                                 ("language", dict_get payload "language");
                                 ("is_active",
                                  dict_get_default payload "is_active" (JBool true));
                                 ("is_superuser",
                                  dict_get_default payload "is_superuser" (JBool false));
                                 ("exp", dict_get payload "exp");
                                 ("iat", dict_get payload "iat") ]) ]))
    (fun e =>
       match e with
       | JWTError _ =>
           logging "warning" ("JWT解析失败: " ++ exn_str e) ;;
           ret (JObj [ ("success", JBool false);
                       ("message", JStr ("JWT解析失败: " ++ exn_str e));
                       ("data", JNull) ])
       | _ => raise e
       end).

(** [verify_token_simple(token)]: a validator of its own, built with the
    default arguments and closed in the [finally] clause; [tr] is the log
    so far. *)
Definition verify_token_simple (w : World) (token : string) (tr : list event)
  : (exn + json) * store :=
  try_finally
    (result <- verify_token w token ;;
     success <- lift (py_get result "success" (JBool false)) ;;
     py_and success
       (data <- lift (py_get result "data" (JObj [])) ;;
        lift (py_get data "valid" (JBool false))))
    close
    (default_validator w, tr).

(** ** Vocabulary of the further properties *)

(** The number of [=] that completes the base64 encoding of [data]. *)
Definition required_pads (data : string) : nat :=
  match (String.length data mod 3)%nat with
  | O => 0%nat
  | S O => 2%nat
  | _ => 1%nat
  end.

Definition config_url (w : World) (self : JWTLocalValidator) : string :=
  user_service_url self ++ auth_jwt_config_endpoint (settings w).



Definition sample_jwks : json :=
  JObj [("keys", JList [JObj [("kty", JStr "oct"); ("k", JStr "eW91ci1zZWNyZXQta2V5")]])].

(** A validator that holds fresh caches and a client, for the
    invalidation examples; [world_remote 1000 ...] is its present. *)
Definition warm_validator : JWTLocalValidator :=
  set_blacklist_cache (JList [JStr "sha256:old"]) (Some 900000000)
    (set_config_cache issuer_config (Some 900000000)
       (set_jwks_cache sample_jwks (Some 900000000)
          (set_client true (default_validator (world_remote 1000 200 200 [] (inr alice_payload)))))).


(** A validator with a fresh revocation list of two fingerprints. *)
Definition validator_with_blacklist : JWTLocalValidator :=
  set_blacklist_cache (JList [JStr "sha256:old"; JStr "sha256:tok"]) (Some 900000000)
    (default_validator (world_remote 1000 200 200 [] (inr alice_payload))).

(** A key object that the key-selection loop passes over: a dict whose
    [kty] is not ["oct"]. *)
Definition is_other_key (key : json) : bool :=
  match key with
  | JObj o => negb (py_eq_str (dict_get o "kty") "oct")
  | _ => false
  end.

(** A key object that ends the key-selection loop: a dict whose [kty] is
    ["oct"]. *)
Definition is_oct_key (key : json) : bool :=
  match key with
  | JObj o => py_eq_str (dict_get o "kty") "oct"
  | _ => false
  end.

Definition rsa_key : json :=
  JObj [("kty", JStr "RSA"); ("n", JStr "0vx7"); ("e", JStr "AQAB")].

(** A symmetric key whose [k] is not base64. *)
Definition broken_oct_key : json := JObj [("kty", JStr "oct"); ("k", JStr "A")].

Definition good_oct_key : json :=
  JObj [("kty", JStr "oct"); ("k", JStr "eW91ci1zZWNyZXQta2V5")].

(** A remote validator holding, fresh, a configuration and the key set
    [jwks]. *)
Definition validator_with_jwks (jwks : json) : JWTLocalValidator :=
  set_config_cache issuer_config (Some 900000000)
    (set_jwks_cache jwks (Some 900000000)
       (default_validator (world_remote 1000 200 200 [] (inr alice_payload)))).


Definition is_http (e : event) : Prop :=
  match e with
  | HttpGet _ => True
  | _ => False
  end.

(** The last character of a string. *)
Fixpoint string_last (s : string) : option ascii :=
  match s with
  | EmptyString => None
  | String c EmptyString => Some c
  | String _ s' => string_last s'
  end.


(** [P] does not depend on the caches or on the held client. *)
Definition setup_property (P : JWTLocalValidator -> Prop) : Prop :=
  forall v, P v ->
    (forall c, P (set_client c v))
    /\ (forall x t, P (set_jwks_cache x t v))
    /\ (forall x t, P (set_config_cache x t v))
    /\ (forall x t, P (set_blacklist_cache x t v)).

(** The configured base URL, as [__init__] reads it:
    [settings.auth_user_service_url], an unset one counting as the empty
    string. *)
Definition configured_url (w : World) : string :=
  match auth_user_service_url (settings w) with
  | Some u => u
  | None => EmptyString
  end.

(** A downstream service configured with the issuer's URL written with
    three trailing slashes. *)
Definition remote_settings_slashes : Settings :=
  {| jwt_secret_key := "your-secret-key";
     jwt_algorithm := "HS256";
     app_name := "ml-user-service";
     auth_use_local_jwt := false;
     auth_user_service_url := Some "http://issuer///";
     auth_jwks_endpoint := "/api/v1/jwt/.well-known/jwks.json";
     auth_jwt_config_endpoint := "/api/v1/jwt/jwt-config";
     auth_blacklist_endpoint := "/api/v1/jwt/blacklist" |}.

(** An issuer that serves its configuration bare, without the [data]
    wrapper. *)
Definition issuer_http_bare (url : string) : exn + response :=
  if String.eqb url "http://issuer/api/v1/jwt/jwt-config" then
    inr (Response 200 (inr issuer_config))
  else issuer_http 200 200 [] url.

(** ** The API dependencies ([app/api/deps.py]) *)

(** A [fastapi.HTTPException]. *)
Record HTTPException : Type := {
  status_code : Z;
  detail : string;
  headers : list (string * string)
}.

Definition credentials_exception : HTTPException :=
  {| status_code := 401;
     detail := "无法验证凭据";
     headers := [("WWW-Authenticate", "Bearer")] |}.

Section Dependencies.

(** The [User] model is not part of the sources at hand; of a user only the
    truth values of [is_active] and [is_superuser] are read. *)
Variable User : Type.
Variable is_active : User -> bool.
Variable is_superuser : User -> bool.

(** [get_current_user], given what
    [await JWTService.get_current_user(session, token.credentials)] does:
    it raises (left) or returns a user or [None] (right).  The [except
    Exception] clause also catches the exception raised for [None] and
    raises the same one. *)
Definition get_current_user (service : string + option User) : HTTPException + User :=
  match service with
  | inr (Some user) => inr user
  | inr None => inl credentials_exception
  | inl _ => inl credentials_exception
  end.

Definition get_current_active_user (current_user : User) : HTTPException + User :=
  if negb (is_active current_user) then
    inl {| status_code := 400; detail := "用户账户已被禁用"; headers := [] |}
  else inr current_user.

Definition get_current_superuser (current_user : User) : HTTPException + User :=
  if negb (is_superuser current_user) then
    inl {| status_code := 403; detail := "权限不足"; headers := [] |}
  else inr current_user.

Definition depends {A B : Type} (dependency : HTTPException + A)
    (f : A -> HTTPException + B) : HTTPException + B :=
  match dependency with
  | inr a => f a
  | inl e => inl e
  end.

(** [get_current_active_user] and [get_current_superuser] as FastAPI
    resolves them: each takes its argument from the dependency named in its
    signature ([Depends(get_current_user)],
    [Depends(get_current_active_user)]). *)
Definition resolve_current_active_user (service : string + option User)
  : HTTPException + User :=
  depends (get_current_user service) get_current_active_user.

Definition resolve_current_superuser (service : string + option User)
  : HTTPException + User :=
  depends (resolve_current_active_user service) get_current_superuser.

End Dependencies.

(** [s.split(sep)] for a one-character separator: every occurrence splits,
    and empty pieces are kept. *)
Fixpoint str_split (sep : ascii) (s : string) : list string :=
  match s with
  | EmptyString => [EmptyString]
  | String c s' =>
      if Ascii.eqb c sep then EmptyString :: str_split sep s'
      else
        match str_split sep s' with
        | piece :: pieces => String c piece :: pieces
        | [] => [String c EmptyString]
        end
  end.

(** [c.isspace()] for the characters of a header value, which Starlette
    decodes as Latin-1, one character per byte. *)
Definition isspace (c : ascii) : bool :=
  let n := nat_of_ascii c in
  ((9 <=? n) && (n <=? 13) || (28 <=? n) && (n <=? 32)
   || (n =? 133) || (n =? 160))%nat.

Fixpoint lstrip_space (s : string) : string :=
  match s with
  | EmptyString => EmptyString
  | String c s' => if isspace c then lstrip_space s' else s
  end.

Fixpoint rstrip_space (s : string) : string :=
  match s with
  | EmptyString => EmptyString
  | String c s' =>
      match rstrip_space s' with
      | EmptyString => if isspace c then EmptyString else String c EmptyString
      | r => String c r
      end
  end.

(** [s.strip()] *)
Definition strip (s : string) : string := rstrip_space (lstrip_space s).

Section RequestLanguage.

(** [app.constants.language] is not part of the sources at hand: which
    languages are supported and which is the default are taken as given. *)
Variable is_supported_language : string -> bool.
Variable get_default_language : string.

(** The language code of one item of [Accept-Language], as the loop body
    computes it. *)
Definition normalise_language (lang : string) : string :=
  let lang_code := strip (hd EmptyString (str_split ";"%char lang)) in
  if prefix "zh" lang_code then "zh-CN"
  else if prefix "en" lang_code then "en-US"
  else lang_code.

(** The [for] loop of [get_request_language]: the first supported code, if
    any. *)
Fixpoint first_supported_language (languages : list string) : option string :=
  match languages with
  | [] => None
  | lang :: rest =>
      let lang_code := normalise_language lang in
      if is_supported_language lang_code then Some lang_code
      else first_supported_language rest
  end.

(** [get_request_language(request)], given [request.headers.get]. *)
Definition get_request_language (header : string -> option string) : string :=
  let from_accept_language :=
    match header "Accept-Language" with
    | Some accept_language =>
        if negb (String.eqb accept_language EmptyString) then
          match first_supported_language (str_split ","%char accept_language) with
          | Some lang_code => lang_code
          | None => get_default_language
          end
        else get_default_language
    | None => get_default_language
    end in
  match header "X-Language" with
  | Some custom_language =>
      if negb (String.eqb custom_language EmptyString)
         && is_supported_language custom_language
      then custom_language
      else from_accept_language
  | None => from_accept_language
  end.

End RequestLanguage.

(** Sample users and requests. *)
Definition sample_user : Type := (bool * bool)%type.

Definition sample_supported (lang : string) : bool :=
  String.eqb lang "zh-CN" || String.eqb lang "en-US".

Definition sample_headers (custom accept : option string) (name : string)
  : option string :=
  if String.eqb name "X-Language" then custom
  else if String.eqb name "Accept-Language" then accept
  else None.


(** A validator built with [cache_ttl = 0] that has just fetched the key
    set. *)
Definition validator_without_ttl : JWTLocalValidator :=
  set_jwks_cache sample_jwks (Some 1000000000)
    (init (world_remote 1000 200 200 [] (inr alice_payload)) 0 300 None).

(** * Properties *)

(** ** Key encoding *)

Lemma urlsafe_digit_facts (s : sextet) :
  Ascii.eqb (urlsafe_digit s) BASE64_PAD = false
  /\ is_ascii (urlsafe_digit s) = true
  /\ Ascii.eqb (_urlsafe_decode_translation (urlsafe_digit s)) BASE64_PAD = false
  /\ table_a2b_base64 (_urlsafe_decode_translation (urlsafe_digit s)) = Some s.
Proof.
  destruct s as [[[[[b5 b4] b3] b2] b1] b0].
  destruct b5, b4, b3, b2, b1, b0; vm_compute; repeat split; reflexivity.
Qed.

Lemma string_ind3 (P : string -> Prop) :
  P EmptyString ->
  (forall x, P (String x EmptyString)) ->
  (forall x y, P (String x (String y EmptyString))) ->
  (forall x y z r, P r -> P (String x (String y (String z r)))) ->
  forall s, P s.
Proof.
  intros H0 H1 H2 H3.
  fix IH 1.
  intros [|x [|y [|z r]]];
    [exact H0 | apply H1 | apply H2 | apply H3, IH].
Qed.

Lemma rstrip_keep (c x : ascii) (s : string) :
  Ascii.eqb x c = false -> rstrip c (String x s) = String x (rstrip c s).
Proof.
  intros Hx. simpl. destruct (rstrip c s); [rewrite Hx|]; reflexivity.
Qed.

Lemma pad_k_four (a b c d : ascii) (k : string) :
  pad_k (String a (String b (String c (String d k))))
  = String a (String b (String c (String d (pad_k k)))).
Proof.
  unfold pad_k.
  change (String.length (String a (String b (String c (String d k)))))
    with (4 + String.length k)%nat.
  replace ((4 + String.length k) mod 4)%nat with (String.length k mod 4)%nat.
  - reflexivity.
  - replace (4 + String.length k)%nat with (String.length k + 1 * 4)%nat by lia.
    symmetry. apply Nat.Div0.mod_add.
Qed.

(** Encoding a group of three bytes gives four digits. *)
Lemma local_jwks_k_three (x y z : ascii) (r : string) :
  exists s1 s2 s3 s4,
    local_jwks_k (String x (String y (String z r)))
    = String (urlsafe_digit s1) (String (urlsafe_digit s2)
        (String (urlsafe_digit s3) (String (urlsafe_digit s4) (local_jwks_k r))))
    /\ forall rest p,
         a2b_base64_loop
           (String (_urlsafe_decode_translation (urlsafe_digit s1))
           (String (_urlsafe_decode_translation (urlsafe_digit s2))
           (String (_urlsafe_decode_translation (urlsafe_digit s3))
           (String (_urlsafe_decode_translation (urlsafe_digit s4)) rest)))) Quad0 p
         = emit x (emit y (emit z (a2b_base64_loop rest Quad0 O))).
Proof.
  destruct x as [x0 x1 x2 x3 x4 x5 x6 x7].
  destruct y as [y0 y1 y2 y3 y4 y5 y6 y7].
  destruct z as [z0 z1 z2 z3 z4 z5 z6 z7].
  exists (x7, x6, x5, x4, x3, x2), (x1, x0, y7, y6, y5, y4),
         (y3, y2, y1, y0, z7, z6), (z5, z4, z3, z2, z1, z0).
  split.
  - unfold local_jwks_k, urlsafe_b64encode.
    change (b2a_base64 (String (Ascii x0 x1 x2 x3 x4 x5 x6 x7)
              (String (Ascii y0 y1 y2 y3 y4 y5 y6 y7)
                 (String (Ascii z0 z1 z2 z3 z4 z5 z6 z7) r))))
      with (String (table_b2a_base64 (x7, x6, x5, x4, x3, x2))
           (String (table_b2a_base64 (x1, x0, y7, y6, y5, y4))
           (String (table_b2a_base64 (y3, y2, y1, y0, z7, z6))
           (String (table_b2a_base64 (z5, z4, z3, z2, z1, z0))
           (b2a_base64 r))))).
    cbn [string_map]. fold (urlsafe_digit (x7, x6, x5, x4, x3, x2)).
    fold (urlsafe_digit (x1, x0, y7, y6, y5, y4)).
    fold (urlsafe_digit (y3, y2, y1, y0, z7, z6)).
    fold (urlsafe_digit (z5, z4, z3, z2, z1, z0)).
    rewrite !rstrip_keep by apply urlsafe_digit_facts.
    reflexivity.
  - intros rest p.
    destruct (urlsafe_digit_facts (x7, x6, x5, x4, x3, x2)) as (_ & _ & E1 & T1).
    destruct (urlsafe_digit_facts (x1, x0, y7, y6, y5, y4)) as (_ & _ & E2 & T2).
    destruct (urlsafe_digit_facts (y3, y2, y1, y0, z7, z6)) as (_ & _ & E3 & T3).
    destruct (urlsafe_digit_facts (z5, z4, z3, z2, z1, z0)) as (_ & _ & E4 & T4).
    cbn [a2b_base64_loop]. rewrite E1, T1.
    cbn [a2b_base64_loop]. rewrite E2, T2.
    cbn [a2b_base64_loop]. rewrite E3, T3.
    cbn [a2b_base64_loop]. rewrite E4, T4.
    reflexivity.
Qed.

(** ** C10 *)

(** C10.  Key encoding round trip: for every signing secret, the unpadded
    base64url value [k] that [_get_local_jwks] publishes, once padded by
    [verify_token]'s key-selection loop with [4 - len(k) % 4] characters
    [=] (four of them when [len(k)] is a multiple of four), decodes back
    to exactly the bytes of the secret. *)
Theorem local_jwks_k_roundtrip (secret : string) :
  urlsafe_b64decode (pad_k (local_jwks_k secret)) = inr secret.
Proof.
  unfold urlsafe_b64decode, a2b_base64.
  cut (string_forall is_ascii (pad_k (local_jwks_k secret)) = true
       /\ a2b_base64_loop
            (string_map _urlsafe_decode_translation (pad_k (local_jwks_k secret)))
            Quad0 O = inr secret).
  { intros [-> ->]. reflexivity. }
  induction secret as [|x|x y|x y z r [IHa IHd]] using string_ind3.
  - split; reflexivity.
  - destruct x as [x0 x1 x2 x3 x4 x5 x6 x7].
    destruct x0, x1, x2, x3, x4, x5, x6, x7; split; reflexivity.
  - destruct x as [x0 x1 x2 x3 x4 x5 x6 x7].
    destruct y as [y0 y1 y2 y3 y4 y5 y6 y7].
    destruct (urlsafe_digit_facts (x7, x6, x5, x4, x3, x2)) as (P1 & A1 & E1 & T1).
    destruct (urlsafe_digit_facts (x1, x0, y7, y6, y5, y4)) as (P2 & A2 & E2 & T2).
    destruct (urlsafe_digit_facts (y3, y2, y1, y0, false, false)) as (P3 & A3 & E3 & T3).
    assert (Hk : local_jwks_k (String (Ascii x0 x1 x2 x3 x4 x5 x6 x7)
                   (String (Ascii y0 y1 y2 y3 y4 y5 y6 y7) EmptyString))
                 = String (urlsafe_digit (x7, x6, x5, x4, x3, x2))
                     (String (urlsafe_digit (x1, x0, y7, y6, y5, y4))
                        (String (urlsafe_digit (y3, y2, y1, y0, false, false))
                           EmptyString))).
    { unfold local_jwks_k, urlsafe_b64encode. cbn [b2a_base64 string_map].
      fold (urlsafe_digit (x7, x6, x5, x4, x3, x2)).
      fold (urlsafe_digit (x1, x0, y7, y6, y5, y4)).
      fold (urlsafe_digit (y3, y2, y1, y0, false, false)).
      rewrite !rstrip_keep by assumption. reflexivity. }
    rewrite Hk. unfold pad_k. cbn [String.length Nat.modulo Nat.divmod Nat.sub
      repeat_char append fst snd string_forall string_map].
    split.
    + rewrite A1, A2, A3. reflexivity.
    + cbn [a2b_base64_loop]. rewrite E1, T1.
      cbn [a2b_base64_loop]. rewrite E2, T2.
      cbn [a2b_base64_loop]. rewrite E3, T3.
      reflexivity.
  - destruct (local_jwks_k_three x y z r) as (s1 & s2 & s3 & s4 & Hk & Hd).
    rewrite Hk, pad_k_four. cbn [string_forall string_map].
    split.
    + destruct (urlsafe_digit_facts s1) as (_ & -> & _).
      destruct (urlsafe_digit_facts s2) as (_ & -> & _).
      destruct (urlsafe_digit_facts s3) as (_ & -> & _).
      destruct (urlsafe_digit_facts s4) as (_ & -> & _).
      exact IHa.
    + rewrite Hd, IHd. reflexivity.
Qed.

(** ** Reasoning about methods *)

Ltac munfold :=
  unfold bind, ret, raise, lift, try_except, get_self, modify_self, tell, logging in *.

Section Preservation.

Context {A B : Type} (P : JWTLocalValidator -> Prop).

Lemma preserves_ret (a : A) : preserves P (ret a).
Proof. intros s H. exact H. Qed.

Lemma preserves_raise (e : exn) : preserves P (@raise A e).
Proof. intros s H. exact H. Qed.

Lemma preserves_lift (r : exn + A) : preserves P (lift r).
Proof. destruct r; intros s H; exact H. Qed.

Lemma preserves_bind (c : M A) (k : A -> M B) :
  preserves P c -> (forall a, preserves P (k a)) -> preserves P (bind c k).
Proof.
  intros Hc Hk s H. unfold bind. specialize (Hc s H).
  destruct (c s) as [[e|a] s']; cbn in *.
  - exact Hc.
  - apply Hk, Hc.
Qed.

Lemma preserves_try_except (c : M A) (h : exn -> M A) :
  preserves P c -> (forall e, preserves P (h e)) -> preserves P (try_except c h).
Proof.
  intros Hc Hh s H. unfold try_except. specialize (Hc s H).
  destruct (c s) as [[e|a] s']; cbn in *.
  - apply Hh, Hc.
  - exact Hc.
Qed.

End Preservation.

Lemma preserves_get_self (P : JWTLocalValidator -> Prop) : preserves P get_self.
Proof. intros s H. exact H. Qed.

Lemma preserves_tell (P : JWTLocalValidator -> Prop) (e : event) : preserves P (tell e).
Proof. intros s H. exact H. Qed.

Lemma preserves_modify_self (P : JWTLocalValidator -> Prop)
    (f : JWTLocalValidator -> JWTLocalValidator) :
  (forall v, P v -> P (f v)) -> preserves P (modify_self f).
Proof. intros Hf s H. apply Hf, H. Qed.

Ltac preserves_step :=
  first
    [ apply preserves_ret | apply preserves_raise | apply preserves_lift
    | apply preserves_get_self | apply preserves_tell
    | apply preserves_bind; [|intro]
    | apply preserves_try_except; [|intro]
    | apply preserves_modify_self ].

Lemma preserves_get_client P : fetch_invariant P -> preserves P _get_client.
Proof.
  intros HP. unfold _get_client. preserves_step; [preserves_step|].
  destruct (_client a); preserves_step. exact HP.
Qed.

Lemma preserves_http_get w P url : preserves P (http_get w url).
Proof. unfold http_get. repeat preserves_step. Qed.

Lemma preserves_fetch_jwks w P : fetch_invariant P -> preserves P (_fetch_jwks w).
Proof.
  intros HP. unfold _fetch_jwks, logging.
  preserves_step.
  - preserves_step; [apply preserves_get_client, HP|].
    preserves_step; [preserves_step|].
    preserves_step; [apply preserves_http_get|].
    destruct a1 as [sc body]. destruct (sc =? 200); preserves_step.
  - destruct e; repeat preserves_step.
Qed.

Lemma preserves_fetch_jwt_config w P :
  fetch_invariant P -> preserves P (_fetch_jwt_config w).
Proof.
  intros HP. unfold _fetch_jwt_config, logging.
  preserves_step.
  - preserves_step; [apply preserves_get_client, HP|].
    preserves_step; [preserves_step|].
    preserves_step; [apply preserves_http_get|].
    destruct a1 as [sc body]. destruct (sc =? 200); repeat preserves_step.
  - destruct e; repeat preserves_step.
Qed.

Lemma preserves_fetch_blacklist w P :
  fetch_invariant P -> preserves P (_fetch_blacklist w).
Proof.
  intros HP. unfold _fetch_blacklist, logging.
  preserves_step.
  - preserves_step; [apply preserves_get_client, HP|].
    preserves_step; [preserves_step|].
    preserves_step; [apply preserves_http_get|].
    destruct a1 as [sc body]. destruct (sc =? 200); repeat preserves_step.
  - repeat preserves_step.
Qed.

Lemma preserves_is_cache_valid w P t : preserves P (_is_cache_valid w t).
Proof. unfold _is_cache_valid. preserves_step; [preserves_step|]. destruct t; preserves_step. Qed.

Lemma preserves_get_jwt_config w P :
  fetch_invariant P ->
  (forall v c t, P v -> P (set_config_cache c t v)) ->
  preserves P (get_jwt_config w).
Proof.
  intros HP Hc. unfold get_jwt_config.
  preserves_step; [preserves_step|].
  destruct (use_local a); [preserves_step|].
  preserves_step; [apply preserves_is_cache_valid|].
  preserves_step; [|repeat preserves_step].
  destruct (negb a0); [|preserves_step].
  preserves_step; [apply preserves_fetch_jwt_config, HP|].
  preserves_step; preserves_step; intros; apply Hc; assumption.
Qed.

Lemma preserves_get_jwks w P :
  fetch_invariant P ->
  (forall v c t, P v -> P (set_jwks_cache c t v)) ->
  preserves P (get_jwks w).
Proof.
  intros HP Hc. unfold get_jwks.
  preserves_step; [preserves_step|].
  destruct (use_local a); [preserves_step|].
  preserves_step; [apply preserves_is_cache_valid|].
  preserves_step; [|repeat preserves_step].
  destruct (negb a0); [|preserves_step].
  preserves_step; [apply preserves_fetch_jwks, HP|].
  preserves_step; preserves_step; intros; apply Hc; assumption.
Qed.

Lemma preserves_trust_material w P :
  fetch_invariant P ->
  (forall v c t, P v -> P (set_config_cache c t v)) ->
  (forall v c t, P v -> P (set_jwks_cache c t v)) ->
  preserves P (verify_token_trust_material w).
Proof.
  intros HP Hc Hj. unfold verify_token_trust_material.
  preserves_step; [apply preserves_get_jwt_config; assumption|].
  do 3 (preserves_step; [preserves_step|]).
  preserves_step; [apply preserves_get_jwks; assumption|].
  repeat preserves_step.
Qed.

(** In local mode [verify_token] returns at its first statement. *)
Lemma verify_token_local (w : World) (token : string) (s : store) :
  use_local (fst s) = true ->
  verify_token w token s = (inr use_async_result, s).
Proof.
  intros H. unfold verify_token. unfold bind at 1. unfold get_self at 1.
  cbn [fst]. rewrite H. reflexivity.
Qed.

(** ** C6 *)

(** C6.  In local mode the blocking entry point [verify_token] returns, for
    every token, the sentinel rejection [USE_VERIFY_TOKEN_ASYNC]; it does no
    verification work and consults no cache: the validator is unchanged and
    no call leaves it. *)
Theorem verify_token_local_sentinel (w : World) (self : JWTLocalValidator)
    (tr : list event) (token : string) :
  use_local self = true ->
  verify_token w token (self, tr) = (inr use_async_result, (self, tr))
  /\ result_success use_async_result = JBool false
  /\ result_error_code use_async_result = JStr "USE_VERIFY_TOKEN_ASYNC".
Proof.
  intros Hlocal. split; [|split; reflexivity].
  apply (verify_token_local w token (self, tr)). exact Hlocal.
Qed.

Lemma verify_token_local_sentinel_witness :
  verify_token (world_local (inr alice_payload) (inr false)) "tok"
    (default_validator (world_local (inr alice_payload) (inr false)), [])
  = (inr use_async_result,
     (default_validator (world_local (inr alice_payload) (inr false)), [])).
Proof.
  apply (verify_token_local_sentinel
           (world_local (inr alice_payload) (inr false))
           (default_validator (world_local (inr alice_payload) (inr false)))
           [] "tok").
  reflexivity.
Defined.

(** ** C1 *)

(** A cache stamp that [_is_cache_valid] accepts makes
    [_get_blacklist_cache] answer from the cache: nothing is fetched. *)
Lemma get_blacklist_cache_fresh (w : World) (self : JWTLocalValidator)
    (tr : list event) :
  cache_is_valid w self (_blacklist_cache_time self) = true ->
  _get_blacklist_cache w (self, tr)
  = (inr (if truthy (_blacklist_cache self) then _blacklist_cache self else JList []),
     (self, tr)).
Proof.
  unfold cache_is_valid, _get_blacklist_cache, _is_cache_valid. munfold. cbn.
  destruct (_blacklist_cache_time self) as [t|]; [|discriminate].
  cbn. intros ->. reflexivity.
Qed.

(** C1.  The validator built with the default arguments has
    [blacklist_cache_ttl = 300] and [cache_ttl = 3600].  Its revocation list
    was fetched 400 seconds ago, and the issuer has since revoked the token;
    the revocation check answers from the 400-second-old list, makes no
    request, and reports the token as not revoked: [_is_cache_valid] compares
    the age with [cache_ttl], and [blacklist_cache_ttl] is never read. *)
Theorem blacklist_cache_outlives_its_ttl :
  blacklist_cache_ttl validator_with_old_blacklist = 300
  /\ cache_ttl validator_with_old_blacklist = 3600
  /\ _blacklist_cache_time validator_with_old_blacklist = Some 0
  /\ cache_age world_revoked_later 0 = 400
  /\ _is_token_blacklisted world_revoked_later "tok" (validator_with_old_blacklist, [])
     = (inr false, (validator_with_old_blacklist, []))
  /\ fst (_is_token_blacklisted world_revoked_later "tok"
            (refresh_blacklist_cache_of validator_with_old_blacklist, []))
     = inr true.
Proof.
  repeat split; vm_compute; reflexivity.
Qed.

(** ** C2 *)

(** The exception [_fetch_jwks] raises for a status other than 200. *)
Lemma fetch_jwks_non_200 (w : World) (self : JWTLocalValidator) (tr : list event)
    (sc : Z) (body : exn + json) :
  client_get w (jwks_url w self) = inr (Response sc body) ->
  sc <> 200 ->
  _fetch_jwks w (self, tr)
  = (inl (JWTValidationError ("获取JWKS失败: " ++ string_of_Z sc) "JWKS_FETCH_ERROR"
            (JObj [("status_code", JInt sc); ("url", JStr (jwks_url w self))])),
     (with_client self, (tr ++ [HttpGet (jwks_url w self)])%list)).
Proof.
  intros Hget Hsc. apply Z.eqb_neq in Hsc.
  unfold _fetch_jwks, _get_client, http_get, with_client, jwks_url in *. munfold. cbn.
  destruct (_client self); cbn; rewrite Hget; cbn; rewrite Hsc; reflexivity.
Qed.

Lemma get_jwks_non_200 (w : World) (self : JWTLocalValidator) (tr : list event)
    (sc : Z) (body : exn + json) :
  use_local self = false ->
  cache_is_valid w self (_jwks_cache_time self) = false ->
  client_get w (jwks_url w self) = inr (Response sc body) ->
  sc <> 200 ->
  get_jwks w (self, tr)
  = (inl (JWTValidationError ("获取JWKS失败: " ++ string_of_Z sc) "JWKS_FETCH_ERROR"
            (JObj [("status_code", JInt sc); ("url", JStr (jwks_url w self))])),
     (with_client self, (tr ++ [HttpGet (jwks_url w self)])%list)).
Proof.
  intros Hremote Hstale Hget Hsc.
  pose proof (fetch_jwks_non_200 w self tr sc body Hget Hsc) as Hfetch.
  unfold get_jwks, _is_cache_valid, cache_is_valid in *.
  unfold bind at 1. unfold get_self at 1. cbn. rewrite Hremote.
  unfold bind at 1. unfold bind at 1. unfold get_self at 1. cbn.
  destruct (_jwks_cache_time self) as [t|]; cbn.
  - rewrite Hstale. cbn. unfold bind at 1. unfold bind at 1. rewrite Hfetch. reflexivity.
  - unfold bind at 1. unfold bind at 1. rewrite Hfetch. reflexivity.
Qed.

(** C2, as the validator behaves.  In remote mode, when the key set has to
    be fetched and the issuer's key-set endpoint answers with a status other
    than 200, [get_jwks] raises [JWTValidationError] with the code
    [JWKS_FETCH_ERROR] and the details [status_code] and [url]; once the
    configuration has been obtained, [verify_token] catches that exception
    and returns it to its caller as a rejection result: [success] is
    [False], the error code is [JWKS_FETCH_ERROR], and the details are
    those of the exception. *)
Theorem jwks_endpoint_failure_is_rejected (w : World) (self : JWTLocalValidator)
    (tr : list event) (token : string) (sc : Z) (body : exn + json)
    (cfg : dict) (s1 : store) :
  use_local self = false ->
  cache_is_valid w self (_jwks_cache_time self) = false ->
  client_get w (jwks_url w self) = inr (Response sc body) ->
  sc <> 200 ->
  get_jwt_config w (self, tr) = (inr (JObj cfg), s1) ->
  fst (get_jwks w (self, tr))
  = inl (JWTValidationError ("获取JWKS失败: " ++ string_of_Z sc) "JWKS_FETCH_ERROR"
           (JObj [("status_code", JInt sc); ("url", JStr (jwks_url w self))]))
  /\ fst (verify_token w token (self, tr))
     = inr (JObj [ ("success", JBool false);
                   ("message", JStr ("获取JWKS失败: " ++ string_of_Z sc));
                   ("data", JObj [ ("valid", JBool false);
                                   ("reason", JStr "validation_error");
                                   ("error_code", JStr "JWKS_FETCH_ERROR");
                                   ("details",
                                    JObj [("status_code", JInt sc);
                                          ("url", JStr (jwks_url w self))]) ]) ]).
Proof.
  intros Hremote Hstale Hget Hsc Hcfg. split.
  - rewrite (get_jwks_non_200 w self tr sc body); auto.
  - assert (HP : (fun v => same_setup v self /\ same_jwks_cache v self) (fst s1)).
    { change s1 with (snd (inr (A:=exn) (JObj cfg), s1)). rewrite <- Hcfg.
      apply (preserves_get_jwt_config w
               (fun v => same_setup v self /\ same_jwks_cache v self)).
      - intros v Hv. exact Hv.
      - intros v c t Hv. exact Hv.
      - cbn. repeat split. }
    destruct s1 as [self1 tr1]. cbn in HP.
    destruct HP as ((Hl & Hu & Ht & _) & (_ & Hjt)).
    assert (Hjw : get_jwks w (self1, tr1)
                  = (inl (JWTValidationError ("获取JWKS失败: " ++ string_of_Z sc)
                            "JWKS_FETCH_ERROR"
                            (JObj [("status_code", JInt sc);
                                   ("url", JStr (jwks_url w self))])),
                     (with_client self1,
                      (tr1 ++ [HttpGet (jwks_url w self)])%list))).
    { replace (jwks_url w self) with (jwks_url w self1)
        by (unfold jwks_url; rewrite Hu; reflexivity).
      apply (get_jwks_non_200 w self1 tr1 sc body).
      - congruence.
      - unfold cache_is_valid in *. rewrite Hjt, Ht. exact Hstale.
      - unfold jwks_url in *. rewrite Hu. exact Hget.
      - exact Hsc. }
    unfold verify_token. unfold bind at 1. unfold get_self at 1. cbn.
    rewrite Hremote. unfold try_except, verify_token_try.
    unfold bind at 1. unfold verify_token_trust_material.
    unfold bind at 1. rewrite Hcfg. cbn [lift py_get].
    unfold bind at 1. unfold ret at 1.
    unfold bind at 1. unfold ret at 1.
    unfold bind at 1. unfold ret at 1.
    unfold bind at 1. rewrite Hjw.
    reflexivity.
Qed.

Lemma jwks_endpoint_failure_is_rejected_witness :
  fst (get_jwks world_jwks_500 (default_validator world_jwks_500, []))
  = inl (JWTValidationError ("获取JWKS失败: " ++ string_of_Z 500) "JWKS_FETCH_ERROR"
           (JObj [("status_code", JInt 500);
                  ("url", JStr (jwks_url world_jwks_500
                                  (default_validator world_jwks_500)))]))
  /\ fst (verify_token world_jwks_500 "tok" (default_validator world_jwks_500, []))
     = inr (JObj [ ("success", JBool false);
                   ("message", JStr ("获取JWKS失败: " ++ string_of_Z 500));
                   ("data", JObj [ ("valid", JBool false);
                                   ("reason", JStr "validation_error");
                                   ("error_code", JStr "JWKS_FETCH_ERROR");
                                   ("details",
                                    JObj [("status_code", JInt 500);
                                          ("url", JStr (jwks_url world_jwks_500
                                                          (default_validator world_jwks_500)))]) ]) ]).
Proof.
  apply (jwks_endpoint_failure_is_rejected world_jwks_500
           (default_validator world_jwks_500) [] "tok" 500
           (inr (JObj [("keys", JList [JObj [("kty", JStr "oct");
                                             ("k", JStr "eW91ci1zZWNyZXQta2V5")]])]))
           [ ("algorithm", JStr "HS256"); ("issuer", JStr "ml-user-service");
             ("audience", JStr "microservices") ]
           (snd (get_jwt_config world_jwks_500 (default_validator world_jwks_500, [])))).
  - reflexivity.
  - reflexivity.
  - reflexivity.
  - discriminate.
  - reflexivity.
Defined.

(** C2, as stated, fails: with the key-set endpoint answering 500,
    [get_jwks] raises, yet [verify_token] raises nothing; its caller gets
    one more result with [success = False], told apart from the other
    rejections only by its error code. *)
Lemma jwks_500_returned_as_rejection :
  (exists e, fst (get_jwks world_jwks_500 (default_validator world_jwks_500, [])) = inl e)
  /\ ~ (exists e, fst (verify_token world_jwks_500 "tok"
                         (default_validator world_jwks_500, [])) = inl e)
  /\ exists r, fst (verify_token world_jwks_500 "tok"
                      (default_validator world_jwks_500, [])) = inr r
               /\ result_success r = JBool false
               /\ result_error_code r = JStr "JWKS_FETCH_ERROR".
Proof.
  split; [|split].
  - eexists. vm_compute. reflexivity.
  - intros [e He]. vm_compute in He. discriminate He.
  - eexists. split; [vm_compute; reflexivity|]. split; reflexivity.
Qed.

(** ** C9 *)

Lemma handlers_structured (e : exn) (s : store) :
  exists r, fst (verification_handlers e s) = inr r
            /\ result_success r = JBool false
            /\ exists code, result_error_code r = JStr code.
Proof.
  destruct e; eexists; (split; [reflexivity|]); (split; [reflexivity|]);
    eexists; reflexivity.
Qed.





Lemma verify_token_remote (w : World) (token : string) (s : store) :
  use_local (fst s) = false ->
  verify_token w token s
  = try_except (verify_token_try w token) verification_handlers s.
Proof.
  intros H. unfold verify_token. unfold bind at 1. unfold get_self at 1.
  cbn [fst]. rewrite H. reflexivity.
Qed.

Lemma verify_token_async_remote (w : World) (token : string) (s : store) :
  use_local (fst s) = false ->
  verify_token_async w token s = verify_token w token s.
Proof.
  intros H. unfold verify_token_async. unfold bind at 1. unfold get_self at 1.
  cbn [fst]. rewrite H. reflexivity.
Qed.

Lemma verify_token_async_local (w : World) (token : string) (s : store) :
  use_local (fst s) = true ->
  verify_token_async w token s = _verify_token_local_async w token s.
Proof.
  intros H. unfold verify_token_async. unfold bind at 1. unfold get_self at 1.
  cbn [fst]. rewrite H. reflexivity.
Qed.



(** ** C7 *)





(** ** C8 *)




(** ** The verification pipeline *)

Lemma validate_payload_fields_cases (payload : dict) :
  match early_stage_code (inr payload) with
  | Some code =>
      (exists m d, _validate_payload_fields payload = inl (JWTValidationError m code d))
      \/ (_validate_payload_fields payload = inr tt
          /\ wrong_token_type (dict_get payload "type") = true
          /\ code = "INVALID_TOKEN_TYPE")
  | None =>
      _validate_payload_fields payload = inr tt
      /\ wrong_token_type (dict_get payload "type") = false
  end.
Proof.
  unfold early_stage_code, _validate_payload_fields, user_active. cbn.
  destruct (dict_mem payload "sub"); cbn; [|left; eexists; eexists; reflexivity].
  destruct (dict_mem payload "username"); cbn; [|left; eexists; eexists; reflexivity].
  destruct (dict_mem payload "roles"); cbn; [|left; eexists; eexists; reflexivity].
  destruct (is_list (dict_get payload "roles")); cbn;
    [|left; eexists; eexists; reflexivity].
  destruct (truthy (dict_get_default payload "is_active" (JBool true))); cbn;
    [|left; eexists; eexists; reflexivity].
  destruct (wrong_token_type (dict_get payload "type")).
  - right. repeat split.
  - split; reflexivity.
Qed.

Lemma validate_payload_fields_ok (payload : dict) :
  valid_shape payload = true -> user_active payload = true ->
  _validate_payload_fields payload = inr tt.
Proof.
  unfold valid_shape, user_active, _validate_payload_fields. cbn.
  intros Hs Ha. apply andb_prop in Hs. destruct Hs as [Hs Hl].
  apply andb_prop in Hs. destruct Hs as [Hs Hr].
  apply andb_prop in Hs. destruct Hs as [Hs Hu].
  rewrite Hs, Hu, Hr. cbn. rewrite Hl, Ha. reflexivity.
Qed.

Lemma handlers_run (e : exn) (s : store) (code : string) :
  early_stage_code (inl e) = Some code ->
  exists r level m,
    verification_handlers e s = (inr r, (fst s, (snd s ++ [Log level m])%list))
    /\ result_success r = JBool false
    /\ result_error_code r = JStr code.
Proof.
  intros Hcode. destruct e; injection Hcode as <-;
    eexists; eexists; eexists; (split; [reflexivity|]); split; reflexivity.
Qed.

Lemma rejected_by_handlers (e : exn) (s : store) (token code : string) :
  early_stage_code (inl e) = Some code ->
  rejected_after_decode
    (verification_handlers e (fst s, (snd s ++ [JwtDecode token])%list)) s token code.
Proof.
  intros Hcode.
  destruct (handlers_run e (fst s, (snd s ++ [JwtDecode token])%list) code Hcode)
    as (r & level & m & Hrun & Hs & Hc).
  exists r, [Log level m]. rewrite Hrun. cbn [fst snd].
  rewrite <- app_assoc. cbn [app].
  repeat split; try assumption. repeat constructor.
Qed.

(** A token rejected before the revocation stage: [check_token] returns or
    raises right after decoding, whatever the revocation check would say. *)
Lemma check_token_early (w : World) (is_blacklisted : string -> M bool)
    (token secret_key : string) (algorithm issuer audience : json)
    (s : store) (code : string) :
  early_stage_code (jwt_decode w token secret_key algorithm issuer audience) = Some code ->
  rejected_after_decode
    (try_except (check_token w is_blacklisted token secret_key algorithm issuer audience)
       verification_handlers s)
    s token code.
Proof.
  unfold check_token, try_except, bind, tell, lift, ret, raise.
  cbn -[verification_handlers].
  destruct (jwt_decode w token secret_key algorithm issuer audience) as [e|payload] eqn:Hd.
  - intros Hcode. apply rejected_by_handlers. exact Hcode.
  - intros Hcode. pose proof (validate_payload_fields_cases payload) as Hv.
    rewrite Hcode in Hv.
    destruct Hv as [(m & d & Hv)|(Hv & Ht & ->)]; rewrite Hv.
    + apply rejected_by_handlers. reflexivity.
    + rewrite Ht.
      exists (wrong_token_type_result (dict_get payload "type")), [].
      repeat split. constructor.
Qed.

(** A token that passes the first three stages goes on to the revocation
    check, and its answer decides. *)
Lemma check_token_passes (w : World) (is_blacklisted : string -> M bool)
    (token secret_key : string) (algorithm issuer audience : json)
    (s : store) (payload : dict) :
  jwt_decode w token secret_key algorithm issuer audience = inr payload ->
  early_stage_code (inr payload) = None ->
  check_token w is_blacklisted token secret_key algorithm issuer audience s
  = match is_blacklisted token (fst s, (snd s ++ [JwtDecode token])%list) with
    | (inr true, s') => (inr token_blacklisted_result, s')
    | (inr false, s') => (inr (success_result payload), s')
    | (inl e, s') => (inl e, s')
    end.
Proof.
  intros Hd Hcode. pose proof (validate_payload_fields_cases payload) as Hv.
  rewrite Hcode in Hv. destruct Hv as [Hv Ht].
  unfold check_token. munfold. cbn. rewrite Hd. cbn. rewrite Hv. cbn. rewrite Ht.
  destruct (is_blacklisted token _) as [[e|[|]] s']; reflexivity.
Qed.

Lemma early_stage_code_passes (payload : dict) :
  valid_shape payload = true -> user_active payload = true ->
  wrong_token_type (dict_get payload "type") = false ->
  early_stage_code (inr payload) = None.
Proof.
  unfold early_stage_code, valid_shape. intros Hs Ha Ht.
  apply andb_prop in Hs. destruct Hs as [Hs Hl].
  rewrite Hs, Hl, Ha, Ht. reflexivity.
Qed.

(** In local mode [verify_token_async] is the pipeline over the revocation
    store. *)
Lemma verify_token_async_local_pipeline (w : World) (token : string) (s : store) :
  use_local (fst s) = true ->
  verify_token_async w token s
  = try_except
      (check_token w (store_is_blacklisted w) token (jwt_secret_key (settings w))
         (JStr (jwt_algorithm (settings w))) (JStr (app_name (settings w)))
         (JStr "microservices"))
      verification_handlers s.
Proof.
  intros H. rewrite verify_token_async_local by exact H. reflexivity.
Qed.

(** In remote mode, once the trust material is there, [verify_token] is the
    pipeline over the cached revocation list. *)
Lemma verify_token_remote_pipeline (w : World) (token : string) (s s1 : store)
    (algorithm issuer audience : json) (c : ascii) (k : string) :
  use_local (fst s) = false ->
  verify_token_trust_material w s
  = (inr (algorithm, issuer, audience, JStr (String c k)), s1) ->
  verify_token w token s
  = try_except
      (check_token w (_is_token_blacklisted w) token (String c k)
         algorithm issuer audience)
      verification_handlers s1.
Proof.
  intros H Htm. rewrite verify_token_remote by exact H.
  unfold try_except, verify_token_try. unfold bind at 1. rewrite Htm. reflexivity.
Qed.

(** ** C5 *)

(** C5, as the validator behaves.  The stages run in the order signature,
    shape, semantics, revocation, and a token rejected at one of the first
    three never reaches the revocation check: the run ends right after the
    decoding with that stage's error code, the validator and its caches are
    untouched and nothing but the log is written, whatever the revocation
    store or list holds.  A token that fails decoding is rejected with
    [JWT_DECODE_ERROR]; a token with a valid signature and shape whose user
    is not disabled and whose [type] claim is non-empty and not ["access"]
    is rejected with [INVALID_TOKEN_TYPE]. *)
Theorem stages_short_circuit (w : World) (token : string)
    (self : JWTLocalValidator) (tr : list event) (code : string) :
  (use_local self = true ->
   early_stage_code (local_decoded w token) = Some code ->
   rejected_after_decode (verify_token_async w token (self, tr)) (self, tr) token code)
  /\ (forall algorithm issuer audience c k s1,
        use_local self = false ->
        verify_token_trust_material w (self, tr)
        = (inr (algorithm, issuer, audience, JStr (String c k)), s1) ->
        early_stage_code (jwt_decode w token (String c k) algorithm issuer audience)
        = Some code ->
        rejected_after_decode (verify_token w token (self, tr)) s1 token code
        /\ verify_token_async w token (self, tr) = verify_token w token (self, tr))
  /\ (forall m, early_stage_code (inl (JWTError m)) = Some "JWT_DECODE_ERROR")
  /\ (forall payload,
        valid_shape payload = true ->
        user_active payload = true ->
        wrong_token_type (dict_get payload "type") = true ->
        early_stage_code (inr payload) = Some "INVALID_TOKEN_TYPE").
Proof.
  split; [|split; [|split]].
  - intros Hlocal Hcode.
    rewrite verify_token_async_local_pipeline by exact Hlocal.
    apply check_token_early. exact Hcode.
  - intros algorithm issuer audience c k s1 Hremote Htm Hcode. split.
    + rewrite (verify_token_remote_pipeline w token (self, tr) s1
                 algorithm issuer audience c k Hremote Htm).
      destruct (check_token_early w (_is_token_blacklisted w) token (String c k)
                  algorithm issuer audience s1 code Hcode) as (r & log & H).
      exists r, log. exact H.
    + apply verify_token_async_remote. exact Hremote.
  - reflexivity.
  - intros payload Hs Ha Ht. unfold early_stage_code, valid_shape in *.
    apply andb_prop in Hs. destruct Hs as [Hs Hl].
    rewrite Hs, Hl, Ha, Ht. reflexivity.
Qed.

Lemma stages_short_circuit_witness :
  rejected_after_decode
    (verify_token_async (world_local_revoked refresh_payload) "tok"
       (default_validator (world_local_revoked refresh_payload), []))
    (default_validator (world_local_revoked refresh_payload), [])
    "tok" "INVALID_TOKEN_TYPE"
  /\ rejected_after_decode
       (verify_token (world_remote_revoked refresh_payload) "tok"
          (default_validator (world_remote_revoked refresh_payload), []))
       (snd (verify_token_trust_material (world_remote_revoked refresh_payload)
               (default_validator (world_remote_revoked refresh_payload), [])))
       "tok" "INVALID_TOKEN_TYPE".
Proof.
  split.
  - apply (stages_short_circuit (world_local_revoked refresh_payload) "tok"
             (default_validator (world_local_revoked refresh_payload)) []
             "INVALID_TOKEN_TYPE").
    + reflexivity.
    + reflexivity.
  - destruct (stages_short_circuit (world_remote_revoked refresh_payload) "tok"
                (default_validator (world_remote_revoked refresh_payload)) []
                "INVALID_TOKEN_TYPE") as (_ & H & _).
    apply (H (JStr "HS256") (JStr "ml-user-service") (JStr "microservices")
             "y"%char "our-secret-key").
    + reflexivity.
    + vm_compute. reflexivity.
    + reflexivity.
Defined.

(** C5, as stated, fails on the [type] clause.  The token is in the
    revocation store in both runs.  With the empty string as [type] claim,
    present and not ["access"], the type check lets the token through, the
    store is queried and the rejection is [TOKEN_BLACKLISTED]; with a
    disabled user and the [type] claim ["refresh"], the rejection is
    [USER_INACTIVE]. *)
Lemma present_wrong_type_not_invalid_token_type :
  valid_shape empty_type_payload = true
  /\ dict_lookup empty_type_payload "type" = Some (JStr EmptyString)
  /\ (exists r,
        verify_token_async (world_local_revoked empty_type_payload) "tok"
          (default_validator (world_local_revoked empty_type_payload), [])
        = (inr r, (default_validator (world_local_revoked empty_type_payload),
                   [JwtDecode "tok"; BlacklistStoreQuery "tok"]))
        /\ result_error_code r = JStr "TOKEN_BLACKLISTED")
  /\ valid_shape inactive_refresh_payload = true
  /\ dict_lookup inactive_refresh_payload "type" = Some (JStr "refresh")
  /\ (exists r,
        fst (verify_token_async (world_local_revoked inactive_refresh_payload) "tok"
               (default_validator (world_local_revoked inactive_refresh_payload), []))
        = inr r
        /\ result_error_code r = JStr "USER_INACTIVE").
Proof.
  repeat split; try reflexivity; eexists; split; reflexivity.
Qed.

(** ** C4 *)

Lemma store_is_blacklisted_run (w : World) (token : string) (s : store) :
  store_is_blacklisted w token s
  = (JWTService_is_blacklisted w token,
     (fst s, (snd s ++ [BlacklistStoreQuery token])%list)).
Proof.
  unfold store_is_blacklisted. munfold. cbn.
  destruct (JWTService_is_blacklisted w token); reflexivity.
Qed.

(** C4, as the validator behaves.  A token signed with the validator's own
    trust material and unexpired (python-jose decodes it against the key,
    algorithm, issuer and audience in force), which carries [sub],
    [username] and a list [roles], whose user is not disabled, whose [type]
    claim is absent, empty or ["access"], and which is not revoked, is
    accepted: by [verify_token_async] in local mode, by [verify_token] and
    [verify_token_async] in remote mode.  The claims returned are those of
    the payload, with [is_active] defaulting to [True] and [is_superuser]
    to [False] when absent. *)
Theorem accepted_round_trip (w : World) (token : string)
    (self : JWTLocalValidator) (tr : list event) (payload : dict) :
  valid_shape payload = true ->
  user_active payload = true ->
  wrong_token_type (dict_get payload "type") = false ->
  (use_local self = true ->
   local_decoded w token = inr payload ->
   JWTService_is_blacklisted w token = inr false ->
   verify_token_async w token (self, tr)
   = (inr (success_result payload),
      (self, (tr ++ [JwtDecode token; BlacklistStoreQuery token])%list)))
  /\ (forall algorithm issuer audience c k s1 s2,
        use_local self = false ->
        verify_token_trust_material w (self, tr)
        = (inr (algorithm, issuer, audience, JStr (String c k)), s1) ->
        jwt_decode w token (String c k) algorithm issuer audience = inr payload ->
        _is_token_blacklisted w token (fst s1, (snd s1 ++ [JwtDecode token])%list)
        = (inr false, s2) ->
        verify_token w token (self, tr) = (inr (success_result payload), s2)
        /\ verify_token_async w token (self, tr) = (inr (success_result payload), s2))
  /\ result_success (success_result payload) = JBool true
  /\ result_data (success_result payload) "user_id" = dict_get payload "sub"
  /\ result_data (success_result payload) "username" = dict_get payload "username"
  /\ result_data (success_result payload) "roles" = dict_get payload "roles"
  /\ result_data (success_result payload) "email" = dict_get payload "email"
  /\ result_data (success_result payload) "phone" = dict_get payload "phone"
  /\ result_data (success_result payload) "full_name" = dict_get payload "full_name"
  /\ result_data (success_result payload) "exp" = dict_get payload "exp"
  /\ result_data (success_result payload) "iat" = dict_get payload "iat"
  /\ result_data (success_result payload) "iss" = dict_get payload "iss"
  /\ result_data (success_result payload) "aud" = dict_get payload "aud"
  /\ result_data (success_result payload) "is_active"
     = match dict_lookup payload "is_active" with Some v => v | None => JBool true end
  /\ result_data (success_result payload) "is_superuser"
     = match dict_lookup payload "is_superuser" with Some v => v | None => JBool false end.
Proof.
  intros Hshape Hactive Htype.
  pose proof (early_stage_code_passes payload Hshape Hactive Htype) as Hpass.
  split; [|split].
  - intros Hlocal Hd Hstore.
    rewrite verify_token_async_local_pipeline by exact Hlocal.
    unfold try_except.
    rewrite (check_token_passes w (store_is_blacklisted w) token _ _ _ _ (self, tr)
               payload Hd Hpass).
    rewrite store_is_blacklisted_run, Hstore. cbn [fst snd].
    rewrite <- app_assoc. reflexivity.
  - intros algorithm issuer audience c k s1 s2 Hremote Htm Hd Hbl.
    assert (H : verify_token w token (self, tr) = (inr (success_result payload), s2)).
    { rewrite (verify_token_remote_pipeline w token (self, tr) s1
                 algorithm issuer audience c k Hremote Htm).
      unfold try_except.
      rewrite (check_token_passes w (_is_token_blacklisted w) token _ _ _ _ s1
                 payload Hd Hpass).
      rewrite Hbl. reflexivity. }
    split; [exact H|].
    rewrite verify_token_async_remote by exact Hremote. exact H.
  - unfold valid_shape in Hshape.
    apply andb_prop in Hshape. destruct Hshape as [Hshape _].
    apply andb_prop in Hshape. destruct Hshape as [_ Hroles].
    repeat split.
    unfold dict_mem in Hroles. cbn. unfold dict_get, dict_get_default.
    destruct (dict_lookup payload "roles"); [reflexivity|discriminate].
Qed.

Lemma accepted_round_trip_witness :
  verify_token_async (world_local (inr alice_payload) (inr false)) "tok"
    (default_validator (world_local (inr alice_payload) (inr false)), [])
  = (inr (success_result alice_payload),
     (default_validator (world_local (inr alice_payload) (inr false)),
      [JwtDecode "tok"; BlacklistStoreQuery "tok"]))
  /\ fst (verify_token (world_remote 2000000000 200 200 [] (inr alice_payload)) "tok"
            (default_validator (world_remote 2000000000 200 200 [] (inr alice_payload)), []))
     = inr (success_result alice_payload).
Proof.
  split.
  - destruct (accepted_round_trip (world_local (inr alice_payload) (inr false)) "tok"
                (default_validator (world_local (inr alice_payload) (inr false))) []
                alice_payload eq_refl eq_refl eq_refl) as (H & _).
    apply H; reflexivity.
  - destruct (accepted_round_trip
                (world_remote 2000000000 200 200 [] (inr alice_payload)) "tok"
                (default_validator (world_remote 2000000000 200 200 [] (inr alice_payload)))
                [] alice_payload eq_refl eq_refl eq_refl) as (_ & H & _).
    destruct (H (JStr "HS256") (JStr "ml-user-service") (JStr "microservices")
                "y"%char "our-secret-key"
                (snd (verify_token_trust_material
                        (world_remote 2000000000 200 200 [] (inr alice_payload))
                        (default_validator
                           (world_remote 2000000000 200 200 [] (inr alice_payload)), [])))
                (snd (verify_token
                        (world_remote 2000000000 200 200 [] (inr alice_payload)) "tok"
                        (default_validator
                           (world_remote 2000000000 200 200 [] (inr alice_payload)), []))))
      as (Hv & _).
    + reflexivity.
    + vm_compute. reflexivity.
    + reflexivity.
    + vm_compute. reflexivity.
    + rewrite Hv. reflexivity.
Defined.

(** C4, as stated, fails: a token that decodes against the validator's
    trust material and carries [sub], [username] and a list [roles] is
    rejected when its user is disabled ([USER_INACTIVE]), when its [type]
    claim is ["refresh"] ([INVALID_TOKEN_TYPE]) and when it is revoked
    ([TOKEN_BLACKLISTED]). *)
Lemma signed_token_not_accepted :
  valid_shape inactive_payload = true
  /\ (exists r,
        fst (verify_token_async (world_local (inr inactive_payload) (inr false)) "tok"
               (default_validator (world_local (inr inactive_payload) (inr false)), []))
        = inr r
        /\ result_success r = JBool false
        /\ result_error_code r = JStr "USER_INACTIVE")
  /\ valid_shape refresh_payload = true
  /\ (exists r,
        fst (verify_token_async (world_local (inr refresh_payload) (inr false)) "tok"
               (default_validator (world_local (inr refresh_payload) (inr false)), []))
        = inr r
        /\ result_success r = JBool false
        /\ result_error_code r = JStr "INVALID_TOKEN_TYPE")
  /\ valid_shape alice_payload = true
  /\ (exists r,
        fst (verify_token_async (world_local_revoked alice_payload) "tok"
               (default_validator (world_local_revoked alice_payload), []))
        = inr r
        /\ result_success r = JBool false
        /\ result_error_code r = JStr "TOKEN_BLACKLISTED").
Proof.
  repeat split; try reflexivity; eexists; repeat split; reflexivity.
Qed.

(** ** C3 *)

(** Remote mode: a failed fetch of the revocation list gives the empty list. *)
Lemma fetch_blacklist_fails (w : World) (self : JWTLocalValidator) (tr : list event) :
  blacklist_fetch_fails w self = true ->
  exists tr', _fetch_blacklist w (self, tr) = (inr (JList []), (with_client self, tr')).
Proof.
  unfold blacklist_fetch_fails, blacklist_url, _fetch_blacklist, _get_client,
    http_get, with_client.
  munfold. cbn.
  destruct (_client self); cbn;
    (destruct (client_get w _) as [e|[sc body]]; cbn;
     [intros _; eexists; reflexivity|]);
    (destruct (sc =? 200); cbn; [discriminate|intros _; eexists; reflexivity]).
Qed.

Lemma get_blacklist_cache_refetch (w : World) (self : JWTLocalValidator)
    (tr tr' : list event) (fetched : json) (self' : JWTLocalValidator) :
  cache_is_valid w self (_blacklist_cache_time self) = false ->
  _fetch_blacklist w (self, tr) = (inr fetched, (self', tr')) ->
  _get_blacklist_cache w (self, tr)
  = (inr (if truthy fetched then fetched else JList []),
     (set_blacklist_cache fetched (Some (utcnow w)) self', tr')).
Proof.
  intros Hstale Hfetch.
  unfold _get_blacklist_cache, _is_cache_valid, cache_is_valid in *.
  unfold bind at 1. unfold get_self at 1. cbn [fst].
  unfold bind at 1. unfold bind at 1. unfold get_self at 1. cbn [fst].
  assert (Hv : (match _blacklist_cache_time self with
                | Some t => ret (utcnow w - t <? cache_ttl self * 1000000)
                | None => ret false
                end) (self, tr) = (inr false, (self, tr))).
  { destruct (_blacklist_cache_time self); [rewrite Hstale|]; reflexivity. }
  rewrite Hv. cbn [negb].
  unfold bind at 1. unfold bind at 1. rewrite Hfetch.
  reflexivity.
Qed.

Lemma is_token_blacklisted_fail_open (w : World) (self : JWTLocalValidator)
    (tr : list event) (token : string) :
  cache_is_valid w self (_blacklist_cache_time self) = false ->
  blacklist_fetch_fails w self = true ->
  exists tr',
    _is_token_blacklisted w token (self, tr)
    = (inr false,
       (set_blacklist_cache (JList []) (Some (utcnow w)) (with_client self), tr')).
Proof.
  intros Hstale Hfail.
  destruct (fetch_blacklist_fails w self tr Hfail) as (tr' & Hfetch).
  exists tr'. unfold _is_token_blacklisted, try_except. unfold bind at 1.
  rewrite (get_blacklist_cache_refetch w self tr tr' (JList []) (with_client self)
             Hstale Hfetch).
  reflexivity.
Qed.

(** Local mode: whatever the token, an error of the revocation store never
    ends in acceptance. *)
Lemma store_error_never_accepted (w : World) (token : string) (s : store)
    (e : exn) (r : json) :
  use_local (fst s) = true ->
  JWTService_is_blacklisted w token = inl e ->
  fst (verify_token_async w token s) = inr r ->
  result_success r = JBool false.
Proof.
  intros Hlocal Hstore.
  rewrite verify_token_async_local_pipeline by exact Hlocal.
  fold (local_decoded w token).
  destruct (early_stage_code (local_decoded w token)) as [code|] eqn:Hcode.
  - destruct (check_token_early w (store_is_blacklisted w) token _ _ _ _ s code Hcode)
      as (r' & log & Hrun & Hs & _).
    unfold local_decoded in *. rewrite Hrun. cbn. intros H. injection H as <-. exact Hs.
  - destruct (local_decoded w token) as [e'|payload] eqn:Hd.
    + destruct e'; discriminate Hcode.
    + unfold try_except. unfold local_decoded in Hd.
      rewrite (check_token_passes w (store_is_blacklisted w) token _ _ _ _ s
                 payload Hd Hcode).
      rewrite store_is_blacklisted_run, Hstore.
      match goal with
      | |- context [verification_handlers e ?st] =>
          destruct (handlers_structured e st) as (r' & Hr' & Hs & _)
      end.
      rewrite Hr'. intros H. injection H as <-. exact Hs.
Qed.

(** C3.  The policy on a failed revocation check differs by mode.  In
    remote mode, when the revocation list has to be fetched and the fetch
    fails (a transport error or a status other than 200), the list
    degrades to the empty list, the token counts as not revoked, and
    verification goes on: a token that passes the earlier stages is
    accepted.  In local mode an error of the revocation store
    ([JWTService.is_blacklisted] raises) reaches the caller as a failure:
    what [verify_token_async] returns is the error, reported with
    [success = False], and no token is accepted while the store fails. *)
Theorem revocation_failure_policy (w : World) (token : string)
    (self : JWTLocalValidator) (tr : list event) :
  (use_local self = false ->
   cache_is_valid w self (_blacklist_cache_time self) = false ->
   blacklist_fetch_fails w self = true ->
   (exists s', _fetch_blacklist w (self, tr) = (inr (JList []), s'))
   /\ (exists s', _is_token_blacklisted w token (self, tr) = (inr false, s'))
   /\ (forall algorithm issuer audience c k s1 payload,
         verify_token_trust_material w (self, tr)
         = (inr (algorithm, issuer, audience, JStr (String c k)), s1) ->
         jwt_decode w token (String c k) algorithm issuer audience = inr payload ->
         early_stage_code (inr payload) = None ->
         fst (verify_token w token (self, tr)) = inr (success_result payload)))
  /\ (forall e,
        use_local self = true ->
        JWTService_is_blacklisted w token = inl e ->
        (forall r, fst (verify_token_async w token (self, tr)) = inr r ->
                   result_success r = JBool false)
        /\ (forall payload,
              local_decoded w token = inr payload ->
              early_stage_code (inr payload) = None ->
              verify_token_async w token (self, tr)
              = verification_handlers e
                  (self, (tr ++ [JwtDecode token; BlacklistStoreQuery token])%list))).
Proof.
  split.
  - intros Hremote Hstale Hfail. split; [|split].
    + destruct (fetch_blacklist_fails w self tr Hfail) as (tr' & H).
      eexists. exact H.
    + destruct (is_token_blacklisted_fail_open w self tr token Hstale Hfail)
        as (tr' & H).
      eexists. exact H.
    + intros algorithm issuer audience c k s1 payload Htm Hd Hpass.
      assert (HP : (fun v => same_setup v self /\ same_blacklist_cache v self) (fst s1)).
      { change s1 with
          (snd (inr (A:=exn) (algorithm, issuer, audience, JStr (String c k)), s1)).
        rewrite <- Htm.
        apply (preserves_trust_material w
                 (fun v => same_setup v self /\ same_blacklist_cache v self)).
        - intros v Hv. exact Hv.
        - intros v c0 t Hv. exact Hv.
        - intros v c0 t Hv. exact Hv.
        - cbn. repeat split. }
      destruct s1 as [self1 tr1]. cbn [fst] in HP.
      destruct HP as ((_ & Hu & Ht & _) & (_ & Hbt)).
      assert (Hstale1 : cache_is_valid w self1 (_blacklist_cache_time self1) = false).
      { unfold cache_is_valid in *. rewrite Hbt, Ht. exact Hstale. }
      assert (Hfail1 : blacklist_fetch_fails w self1 = true).
      { unfold blacklist_fetch_fails, blacklist_url in *. rewrite Hu. exact Hfail. }
      destruct (is_token_blacklisted_fail_open w self1
                  (tr1 ++ [JwtDecode token])%list token Hstale1 Hfail1) as (tr' & Hbl).
      rewrite (verify_token_remote_pipeline w token (self, tr) (self1, tr1)
                 algorithm issuer audience c k Hremote Htm).
      unfold try_except.
      rewrite (check_token_passes w (_is_token_blacklisted w) token _ _ _ _
                 (self1, tr1) payload Hd Hpass).
      cbn [fst snd]. rewrite Hbl. reflexivity.
  - intros e Hlocal Hstore. split.
    + intros r. apply (store_error_never_accepted w token (self, tr) e r Hlocal Hstore).
    + intros payload Hd Hpass.
      rewrite verify_token_async_local_pipeline by exact Hlocal.
      unfold try_except. unfold local_decoded in Hd.
      rewrite (check_token_passes w (store_is_blacklisted w) token _ _ _ _ (self, tr)
                 payload Hd Hpass).
      rewrite store_is_blacklisted_run, Hstore. cbn [fst snd].
      rewrite <- app_assoc. reflexivity.
Qed.

Lemma revocation_failure_policy_witness :
  fst (verify_token world_blacklist_down "tok"
         (default_validator world_blacklist_down, []))
  = inr (success_result alice_payload)
  /\ (exists r,
        fst (verify_token_async world_store_down "tok"
               (default_validator world_store_down, [])) = inr r
        /\ result_success r = JBool false
        /\ result_error_code r = JStr "VALIDATION_EXCEPTION").
Proof.
  split.
  - destruct (revocation_failure_policy world_blacklist_down "tok"
                (default_validator world_blacklist_down) []) as (H & _).
    destruct (H eq_refl eq_refl eq_refl) as (_ & _ & Hv).
    apply (Hv (JStr "HS256") (JStr "ml-user-service") (JStr "microservices")
              "y"%char "our-secret-key"
              (snd (verify_token_trust_material world_blacklist_down
                      (default_validator world_blacklist_down, [])))).
    + vm_compute. reflexivity.
    + reflexivity.
    + reflexivity.
  - destruct (revocation_failure_policy world_store_down "tok"
                (default_validator world_store_down) []) as (_ & H).
    destruct (H (Exception "ConnectionError" "redis is down") eq_refl eq_refl)
      as (Hnever & Hrun).
    exists (JObj [ ("success", JBool false);
                   ("message", JStr ("令牌验证异常: " ++ "redis is down"));
                   ("data", JObj [ ("valid", JBool false);
                                   ("reason", JStr "exception");
                                   ("error_code", JStr "VALIDATION_EXCEPTION") ]) ]).
    split; [|split; reflexivity].
    rewrite (Hrun alice_payload eq_refl eq_refl). reflexivity.
Defined.

(** * Further properties *)

(** ** Key decoding with any sufficient padding *)

Lemma a2b_pads_at_group_start (n p : nat) :
  a2b_base64_loop (string_map _urlsafe_decode_translation (repeat_char "="%char n))
    Quad0 p = inr EmptyString.
Proof. induction n as [|n IH]; [reflexivity|exact IH]. Qed.

Lemma repeat_pad_ascii (n : nat) :
  string_forall is_ascii (repeat_char "="%char n) = true.
Proof. induction n as [|n IH]; [reflexivity|exact IH]. Qed.

Lemma required_pads_three (x y z : ascii) (r : string) :
  required_pads (String x (String y (String z r))) = required_pads r.
Proof.
  unfold required_pads.
  change (String.length (String x (String y (String z r))))
    with (3 + String.length r)%nat.
  replace ((3 + String.length r) mod 3)%nat with (String.length r mod 3)%nat.
  - reflexivity.
  - replace (3 + String.length r)%nat with (String.length r + 1 * 3)%nat by lia.
    symmetry. apply Nat.Div0.mod_add.
Qed.

Lemma local_jwks_k_one (x0 x1 x2 x3 x4 x5 x6 x7 : bool) :
  local_jwks_k (String (Ascii x0 x1 x2 x3 x4 x5 x6 x7) EmptyString)
  = String (urlsafe_digit (x7, x6, x5, x4, x3, x2))
      (String (urlsafe_digit (x1, x0, false, false, false, false)) EmptyString).
Proof.
  destruct (urlsafe_digit_facts (x7, x6, x5, x4, x3, x2)) as (P1 & _).
  destruct (urlsafe_digit_facts (x1, x0, false, false, false, false)) as (P2 & _).
  unfold local_jwks_k, urlsafe_b64encode. cbn [b2a_base64 string_map].
  fold (urlsafe_digit (x7, x6, x5, x4, x3, x2)).
  fold (urlsafe_digit (x1, x0, false, false, false, false)).
  rewrite !rstrip_keep by assumption. reflexivity.
Qed.

Lemma local_jwks_k_two (x0 x1 x2 x3 x4 x5 x6 x7 y0 y1 y2 y3 y4 y5 y6 y7 : bool) :
  local_jwks_k (String (Ascii x0 x1 x2 x3 x4 x5 x6 x7)
                  (String (Ascii y0 y1 y2 y3 y4 y5 y6 y7) EmptyString))
  = String (urlsafe_digit (x7, x6, x5, x4, x3, x2))
      (String (urlsafe_digit (x1, x0, y7, y6, y5, y4))
         (String (urlsafe_digit (y3, y2, y1, y0, false, false)) EmptyString)).
Proof.
  destruct (urlsafe_digit_facts (x7, x6, x5, x4, x3, x2)) as (P1 & _).
  destruct (urlsafe_digit_facts (x1, x0, y7, y6, y5, y4)) as (P2 & _).
  destruct (urlsafe_digit_facts (y3, y2, y1, y0, false, false)) as (P3 & _).
  unfold local_jwks_k, urlsafe_b64encode. cbn [b2a_base64 string_map].
  fold (urlsafe_digit (x7, x6, x5, x4, x3, x2)).
  fold (urlsafe_digit (x1, x0, y7, y6, y5, y4)).
  fold (urlsafe_digit (y3, y2, y1, y0, false, false)).
  rewrite !rstrip_keep by assumption. reflexivity.
Qed.

(** The unpadded encoding followed by at least the required number of [=]
    decodes to the data. *)
Lemma decode_with_enough_pads (data : string) :
  forall n, (required_pads data <= n)%nat ->
    string_forall is_ascii (local_jwks_k data ++ repeat_char "="%char n) = true
    /\ a2b_base64_loop
         (string_map _urlsafe_decode_translation
            (local_jwks_k data ++ repeat_char "="%char n))
         Quad0 O = inr data.
Proof.
  induction data as [|x|x y|x y z r IH] using string_ind3; intros n Hn.
  - split; [apply repeat_pad_ascii|apply a2b_pads_at_group_start].
  - destruct x as [x0 x1 x2 x3 x4 x5 x6 x7].
    rewrite local_jwks_k_one.
    destruct (urlsafe_digit_facts (x7, x6, x5, x4, x3, x2)) as (_ & A1 & E1 & T1).
    destruct (urlsafe_digit_facts (x1, x0, false, false, false, false))
      as (_ & A2 & E2 & T2).
    destruct n as [|[|n]]; [cbn in Hn; lia|cbn in Hn; lia|].
    cbn [append repeat_char string_forall string_map]. split.
    + rewrite A1, A2. cbn. apply repeat_pad_ascii.
    + cbn [a2b_base64_loop]. rewrite E1, T1.
      cbn [a2b_base64_loop]. rewrite E2, T2.
      reflexivity.
  - destruct x as [x0 x1 x2 x3 x4 x5 x6 x7].
    destruct y as [y0 y1 y2 y3 y4 y5 y6 y7].
    rewrite local_jwks_k_two.
    destruct (urlsafe_digit_facts (x7, x6, x5, x4, x3, x2)) as (_ & A1 & E1 & T1).
    destruct (urlsafe_digit_facts (x1, x0, y7, y6, y5, y4)) as (_ & A2 & E2 & T2).
    destruct (urlsafe_digit_facts (y3, y2, y1, y0, false, false)) as (_ & A3 & E3 & T3).
    destruct n as [|n]; [cbn in Hn; lia|].
    cbn [append repeat_char string_forall string_map]. split.
    + rewrite A1, A2, A3. cbn. apply repeat_pad_ascii.
    + cbn [a2b_base64_loop]. rewrite E1, T1.
      cbn [a2b_base64_loop]. rewrite E2, T2.
      cbn [a2b_base64_loop]. rewrite E3, T3.
      reflexivity.
  - rewrite required_pads_three in Hn.
    destruct (IH n Hn) as [IHa IHd].
    destruct (local_jwks_k_three x y z r) as (s1 & s2 & s3 & s4 & Hk & Hd).
    rewrite Hk. cbn [append string_forall string_map]. split.
    + destruct (urlsafe_digit_facts s1) as (_ & -> & _).
      destruct (urlsafe_digit_facts s2) as (_ & -> & _).
      destruct (urlsafe_digit_facts s3) as (_ & -> & _).
      destruct (urlsafe_digit_facts s4) as (_ & -> & _).
      exact IHa.
    + rewrite Hd, IHd. reflexivity.
Qed.

Lemma repeat_char_add (c : ascii) (a b : nat) :
  repeat_char c a ++ repeat_char c b = repeat_char c (a + b).
Proof. induction a as [|a IH]; [reflexivity|cbn; rewrite IH; reflexivity]. Qed.

Lemma string_app_assoc (a b c : string) : (a ++ b) ++ c = a ++ (b ++ c).
Proof. induction a as [|x a IH]; [reflexivity|cbn; rewrite IH; reflexivity]. Qed.

(** The padded encoding is the unpadded one followed by the required [=],
    and its length is a multiple of four. *)
Lemma urlsafe_b64encode_padded (data : string) :
  urlsafe_b64encode data
  = local_jwks_k data ++ repeat_char "="%char (required_pads data)
  /\ (String.length (urlsafe_b64encode data) mod 4 = 0)%nat.
Proof.
  induction data as [|x|x y|x y z r [IHe IHl]] using string_ind3.
  - split; reflexivity.
  - destruct x as [x0 x1 x2 x3 x4 x5 x6 x7]. rewrite local_jwks_k_one.
    split; reflexivity.
  - destruct x as [x0 x1 x2 x3 x4 x5 x6 x7].
    destruct y as [y0 y1 y2 y3 y4 y5 y6 y7]. rewrite local_jwks_k_two.
    split; reflexivity.
  - destruct (local_jwks_k_three x y z r) as (s1 & s2 & s3 & s4 & Hk & _).
    rewrite Hk, required_pads_three.
    destruct x as [x0 x1 x2 x3 x4 x5 x6 x7].
    destruct y as [y0 y1 y2 y3 y4 y5 y6 y7].
    destruct z as [z0 z1 z2 z3 z4 z5 z6 z7].
    unfold local_jwks_k, urlsafe_b64encode in Hk.
    cbn [b2a_base64 string_map] in Hk.
    repeat match type of Hk with
           | context [_urlsafe_encode_translation (table_b2a_base64 ?v)] =>
               fold (urlsafe_digit v) in Hk
           end.
    rewrite !rstrip_keep in Hk by apply urlsafe_digit_facts.
    injection Hk as H1 H2 H3 H4.
    unfold urlsafe_b64encode in *. cbn [b2a_base64 string_map].
    repeat match goal with
           | |- context [_urlsafe_encode_translation (table_b2a_base64 ?v)] =>
               fold (urlsafe_digit v)
           end.
    rewrite H1, H2, H3, H4. cbn [append]. rewrite IHe. split; [reflexivity|].
    rewrite <- IHe.
    change (String.length (String (urlsafe_digit s1) (String (urlsafe_digit s2)
              (String (urlsafe_digit s3) (String (urlsafe_digit s4)
                 (string_map _urlsafe_encode_translation (b2a_base64 r)))))))
      with (4 + String.length (string_map _urlsafe_encode_translation (b2a_base64 r)))%nat.
    replace (4 + String.length (string_map _urlsafe_encode_translation (b2a_base64 r)))%nat
      with (String.length (string_map _urlsafe_encode_translation (b2a_base64 r)) + 1 * 4)%nat
      by lia.
    rewrite Nat.Div0.mod_add. exact IHl.
Qed.

(** ** X1 *)

(** X1.  A key published with its padding is accepted as well: the padded
    base64url encoding of any byte string, run through the padding step of
    [verify_token]'s key-selection loop (which then appends four more [=]),
    decodes to the byte string. *)
Theorem padded_key_roundtrip (data : string) :
  urlsafe_b64decode (pad_k (urlsafe_b64encode data)) = inr data.
Proof.
  destruct (urlsafe_b64encode_padded data) as [He Hl].
  unfold pad_k. rewrite Hl. rewrite He at 1.
  rewrite string_app_assoc, repeat_char_add.
  destruct (decode_with_enough_pads data (required_pads data + (4 - 0))%nat)
    as [Ha Hd]; [lia|].
  unfold urlsafe_b64decode, a2b_base64. rewrite Ha. exact Hd.
Qed.

(** ** Caches *)

Lemma get_jwks_fresh (w : World) (self : JWTLocalValidator) (tr : list event) :
  use_local self = false ->
  cache_is_valid w self (_jwks_cache_time self) = true ->
  get_jwks w (self, tr) = (inr (_jwks_cache self), (self, tr)).
Proof.
  unfold cache_is_valid, get_jwks, _is_cache_valid. munfold. cbn.
  intros ->. destruct (_jwks_cache_time self) as [t|]; [|discriminate].
  cbn. intros ->. reflexivity.
Qed.

Lemma get_jwt_config_fresh (w : World) (self : JWTLocalValidator) (tr : list event) :
  use_local self = false ->
  cache_is_valid w self (_config_cache_time self) = true ->
  get_jwt_config w (self, tr) = (inr (_config_cache self), (self, tr)).
Proof.
  unfold cache_is_valid, get_jwt_config, _is_cache_valid. munfold. cbn.
  intros ->. destruct (_config_cache_time self) as [t|]; [|discriminate].
  cbn. intros ->. reflexivity.
Qed.


Lemma get_jwks_refetch (w : World) (self self' : JWTLocalValidator)
    (tr tr' : list event) (r : exn + json) :
  use_local self = false ->
  cache_is_valid w self (_jwks_cache_time self) = false ->
  _fetch_jwks w (self, tr) = (r, (self', tr')) ->
  get_jwks w (self, tr)
  = match r with
    | inr v => (inr v, (set_jwks_cache v (Some (utcnow w)) self', tr'))
    | inl e => (inl e, (self', tr'))
    end.
Proof.
  intros Hremote Hstale Hfetch.
  unfold get_jwks, _is_cache_valid, cache_is_valid in *.
  unfold bind at 1. unfold get_self at 1. cbn [fst]. rewrite Hremote.
  unfold bind at 1. unfold bind at 1. unfold get_self at 1. cbn [fst].
  assert (Hv : (match _jwks_cache_time self with
                | Some t => ret (utcnow w - t <? cache_ttl self * 1000000)
                | None => ret false
                end) (self, tr) = (inr false, (self, tr))).
  { destruct (_jwks_cache_time self); [rewrite Hstale|]; reflexivity. }
  rewrite Hv. cbn [negb].
  unfold bind at 1. unfold bind at 1. rewrite Hfetch.
  destruct r; reflexivity.
Qed.

(** A fetch of the key set starts with the request, whatever comes of it. *)
Lemma fetch_jwks_requests (w : World) (self : JWTLocalValidator) (tr : list event) :
  exists r rest,
    _fetch_jwks w (self, tr)
    = (r, (with_client self, (tr ++ HttpGet (jwks_url w self) :: rest)%list)).
Proof.
  unfold _fetch_jwks, _get_client, http_get, with_client, jwks_url. munfold. cbn.
  destruct (_client self); cbn;
    (destruct (client_get w _) as [e|[sc body]]; cbn;
     [destruct e; cbn; eexists; eexists; rewrite <- ?app_assoc; reflexivity|]);
    (destruct (sc =? 200); cbn;
     [destruct body as [[m c d|m|n m]|v]; cbn|];
     eexists; eexists; rewrite <- ?app_assoc; reflexivity).
Qed.

Lemma get_jwks_stale_requests (w : World) (self : JWTLocalValidator) (tr : list event) :
  use_local self = false ->
  cache_is_valid w self (_jwks_cache_time self) = false ->
  exists r self' rest,
    get_jwks w (self, tr)
    = (r, (self', (tr ++ HttpGet (jwks_url w self) :: rest)%list)).
Proof.
  intros Hremote Hstale.
  destruct (fetch_jwks_requests w self tr) as (r & rest & Hfetch).
  rewrite (get_jwks_refetch w self _ tr _ r Hremote Hstale Hfetch).
  destruct r; eexists; eexists; eexists; reflexivity.
Qed.

(** ** X2 *)



(** ** Fetching always starts with the request *)

Lemma fetch_jwt_config_requests (w : World) (self : JWTLocalValidator) (tr : list event) :
  exists r rest,
    _fetch_jwt_config w (self, tr)
    = (r, (with_client self, (tr ++ HttpGet (config_url w self) :: rest)%list)).
Proof.
  unfold _fetch_jwt_config, _get_client, http_get, with_client, config_url. munfold. cbn.
  destruct (_client self); cbn;
    (destruct (client_get w _) as [e|[sc body]]; cbn;
     [destruct e; cbn; eexists; eexists; rewrite <- ?app_assoc; reflexivity|]);
    (destruct (sc =? 200); cbn;
     [destruct body as [[m c d|m|n m]|[| | | | |o]]; cbn|];
     eexists; eexists; rewrite <- ?app_assoc; reflexivity).
Qed.

Lemma get_jwt_config_refetch (w : World) (self self' : JWTLocalValidator)
    (tr tr' : list event) (r : exn + json) :
  use_local self = false ->
  cache_is_valid w self (_config_cache_time self) = false ->
  _fetch_jwt_config w (self, tr) = (r, (self', tr')) ->
  get_jwt_config w (self, tr)
  = match r with
    | inr v => (inr v, (set_config_cache v (Some (utcnow w)) self', tr'))
    | inl e => (inl e, (self', tr'))
    end.
Proof.
  intros Hremote Hstale Hfetch.
  unfold get_jwt_config, _is_cache_valid, cache_is_valid in *.
  unfold bind at 1. unfold get_self at 1. cbn [fst]. rewrite Hremote.
  unfold bind at 1. unfold bind at 1. unfold get_self at 1. cbn [fst].
  assert (Hv : (match _config_cache_time self with
                | Some t => ret (utcnow w - t <? cache_ttl self * 1000000)
                | None => ret false
                end) (self, tr) = (inr false, (self, tr))).
  { destruct (_config_cache_time self); [rewrite Hstale|]; reflexivity. }
  rewrite Hv. cbn [negb].
  unfold bind at 1. unfold bind at 1. rewrite Hfetch.
  destruct r; reflexivity.
Qed.

Lemma get_jwt_config_stale_requests (w : World) (self : JWTLocalValidator)
    (tr : list event) :
  use_local self = false ->
  cache_is_valid w self (_config_cache_time self) = false ->
  exists r self' rest,
    get_jwt_config w (self, tr)
    = (r, (self', (tr ++ HttpGet (config_url w self) :: rest)%list)).
Proof.
  intros Hremote Hstale.
  destruct (fetch_jwt_config_requests w self tr) as (r & rest & Hfetch).
  rewrite (get_jwt_config_refetch w self _ tr _ r Hremote Hstale Hfetch).
  destruct r; eexists; eexists; eexists; reflexivity.
Qed.

(** [_fetch_blacklist] sends its request and returns a value: it never
    raises. *)
Lemma fetch_blacklist_requests (w : World) (self : JWTLocalValidator) (tr : list event) :
  exists v rest,
    _fetch_blacklist w (self, tr)
    = (inr v, (with_client self, (tr ++ HttpGet (blacklist_url w self) :: rest)%list)).
Proof.
  unfold _fetch_blacklist, _get_client, http_get, with_client, blacklist_url. munfold. cbn.
  destruct (_client self); cbn;
    (destruct (client_get w _) as [e|[sc body]]; cbn;
     [eexists; eexists; rewrite <- ?app_assoc; reflexivity|]);
    (destruct (sc =? 200); cbn;
     [destruct body as [e|[| | | | |o]]; cbn;
      [| | | | | |destruct (dict_get_default o "data" (JObj [])); cbn]|];
     eexists; eexists; rewrite <- ?app_assoc; reflexivity).
Qed.

Lemma get_blacklist_cache_stale_requests (w : World) (self : JWTLocalValidator)
    (tr : list event) :
  cache_is_valid w self (_blacklist_cache_time self) = false ->
  exists v rest,
    _get_blacklist_cache w (self, tr)
    = (inr (if truthy v then v else JList []),
       (set_blacklist_cache v (Some (utcnow w)) (with_client self),
        (tr ++ HttpGet (blacklist_url w self) :: rest)%list)).
Proof.
  intros Hstale.
  destruct (fetch_blacklist_requests w self tr) as (v & rest & Hfetch).
  exists v, rest.
  apply (get_blacklist_cache_refetch w self tr _ v (with_client self) Hstale Hfetch).
Qed.

(** The revocation check over a fresh cache. *)
Lemma is_token_blacklisted_fresh (w : World) (self : JWTLocalValidator)
    (tr : list event) (token : string) :
  cache_is_valid w self (_blacklist_cache_time self) = true ->
  _is_token_blacklisted w token (self, tr)
  = match py_in (sha256_hexdigest w token)
            (if truthy (_blacklist_cache self) then _blacklist_cache self else JList [])
    with
    | inr b => (inr b, (self, tr))
    | inl e => (inr false, (self, (tr ++ [Log "error" ("检查黑名单异常: " ++ exn_str e)])%list))
    end.
Proof.
  intros Hfresh. unfold _is_token_blacklisted, try_except. unfold bind at 1.
  rewrite (get_blacklist_cache_fresh w self tr Hfresh).
  destruct (py_in _ _); reflexivity.
Qed.

Lemma is_token_blacklisted_stale_requests (w : World) (self : JWTLocalValidator)
    (tr : list event) (token : string) :
  cache_is_valid w self (_blacklist_cache_time self) = false ->
  exists b v rest,
    _is_token_blacklisted w token (self, tr)
    = (inr b, (set_blacklist_cache v (Some (utcnow w)) (with_client self),
               (tr ++ HttpGet (blacklist_url w self) :: rest)%list)).
Proof.
  intros Hstale.
  destruct (get_blacklist_cache_stale_requests w self tr Hstale) as (v & rest & Hget).
  unfold _is_token_blacklisted, try_except. unfold bind at 1. rewrite Hget.
  destruct (py_in (sha256_hexdigest w token) (if truthy v then v else JList []))
    as [e|b]; cbn; munfold; cbn; rewrite <- ?app_assoc;
    eexists; eexists; eexists; reflexivity.
Qed.

(** ** X3 *)

(** X3.  [refresh_cache] drops the three caches and nothing else: the
    construction-time fields and the held client stay, nothing is fetched by
    the call itself, and in remote mode the next [get_jwt_config], the next
    [get_jwks] and the next revocation check each send their request, however
    recently the dropped value had been fetched. *)
Theorem refresh_cache_forces_refetch (w : World) (self : JWTLocalValidator)
    (tr : list event) (token : string) :
  use_local self = false ->
  exists fresh,
    refresh_cache (self, tr) = (inr tt, (fresh, tr))
    /\ same_setup fresh self
    /\ _client fresh = _client self
    /\ (exists r self' rest,
          get_jwt_config w (fresh, tr)
          = (r, (self', (tr ++ HttpGet (config_url w self) :: rest)%list)))
    /\ (exists r self' rest,
          get_jwks w (fresh, tr)
          = (r, (self', (tr ++ HttpGet (jwks_url w self) :: rest)%list)))
    /\ (exists b self' rest,
          _is_token_blacklisted w token (fresh, tr)
          = (inr b, (self', (tr ++ HttpGet (blacklist_url w self) :: rest)%list))).
Proof.
  intros Hremote.
  exists (set_blacklist_cache JNull None
            (set_config_cache JNull None (set_jwks_cache JNull None self))).
  split; [reflexivity|]. split; [repeat split|]. split; [reflexivity|].
  split; [|split].
  - apply (get_jwt_config_stale_requests w
             (set_blacklist_cache JNull None
                (set_config_cache JNull None (set_jwks_cache JNull None self))) tr);
      [exact Hremote|reflexivity].
  - apply (get_jwks_stale_requests w
             (set_blacklist_cache JNull None
                (set_config_cache JNull None (set_jwks_cache JNull None self))) tr);
      [exact Hremote|reflexivity].
  - destruct (is_token_blacklisted_stale_requests w
                (set_blacklist_cache JNull None
                   (set_config_cache JNull None (set_jwks_cache JNull None self)))
                tr token eq_refl) as (b & v & rest & H).
    exists b. eexists. exists rest. exact H.
Qed.

Lemma refresh_cache_forces_refetch_witness :
  cache_is_valid (world_remote 1000 200 200 [] (inr alice_payload)) warm_validator
    (_jwks_cache_time warm_validator) = true
  /\ exists fresh,
       refresh_cache (warm_validator, []) = (inr tt, (fresh, []))
       /\ exists r self' rest,
            get_jwks (world_remote 1000 200 200 [] (inr alice_payload)) (fresh, [])
            = (r, (self',
                   HttpGet (jwks_url (world_remote 1000 200 200 [] (inr alice_payload))
                              warm_validator) :: rest)).
Proof.
  split; [reflexivity|].
  destruct (refresh_cache_forces_refetch
              (world_remote 1000 200 200 [] (inr alice_payload))
              warm_validator [] "tok" eq_refl)
    as (fresh & Hrun & _ & _ & _ & Hjwks & _).
  exists fresh. split; [exact Hrun|exact Hjwks].
Defined.

(** ** X4 *)

(** X4.  [refresh_blacklist_cache] drops the revocation list only: the next
    revocation check sends its request, while the cached configuration and
    key set stay as they were and keep being served without a request. *)
Theorem refresh_blacklist_cache_only (w : World) (self : JWTLocalValidator)
    (tr : list event) (token : string) :
  exists fresh,
    refresh_blacklist_cache (self, tr) = (inr tt, (fresh, tr))
    /\ same_setup fresh self
    /\ same_jwks_cache fresh self
    /\ _config_cache fresh = _config_cache self
    /\ _config_cache_time fresh = _config_cache_time self
    /\ (exists b self' rest,
          _is_token_blacklisted w token (fresh, tr)
          = (inr b, (self', (tr ++ HttpGet (blacklist_url w self) :: rest)%list)))
    /\ (use_local self = false ->
        cache_is_valid w self (_jwks_cache_time self) = true ->
        get_jwks w (fresh, tr) = (inr (_jwks_cache self), (fresh, tr)))
    /\ (use_local self = false ->
        cache_is_valid w self (_config_cache_time self) = true ->
        get_jwt_config w (fresh, tr) = (inr (_config_cache self), (fresh, tr))).
Proof.
  exists (set_blacklist_cache JNull None self).
  split; [reflexivity|]. split; [repeat split|]. split; [split; reflexivity|].
  split; [reflexivity|]. split; [reflexivity|]. split; [|split].
  - destruct (is_token_blacklisted_stale_requests w (set_blacklist_cache JNull None self)
                tr token eq_refl) as (b & v & rest & H).
    exists b. eexists. exists rest. exact H.
  - intros Hremote Hfresh.
    apply (get_jwks_fresh w (set_blacklist_cache JNull None self) tr Hremote Hfresh).
  - intros Hremote Hfresh.
    apply (get_jwt_config_fresh w (set_blacklist_cache JNull None self) tr Hremote Hfresh).
Qed.

Lemma refresh_blacklist_cache_only_witness :
  exists fresh,
    refresh_blacklist_cache (warm_validator, []) = (inr tt, (fresh, []))
    /\ get_jwks (world_remote 1000 200 200 [] (inr alice_payload)) (fresh, [])
       = (inr sample_jwks, (fresh, [])).
Proof.
  destruct (refresh_blacklist_cache_only
              (world_remote 1000 200 200 [] (inr alice_payload)) warm_validator [] "tok")
    as (fresh & Hrun & _ & _ & _ & _ & _ & Hjwks & _).
  exists fresh. split; [exact Hrun|].
  apply Hjwks; reflexivity.
Defined.

(** ** X5 *)



(** ** X6 *)

(** X6.  A failed fetch of the key set is not cached.  In remote mode, when
    [get_jwks] has to fetch and raises, the cached key set and its stamp are
    what they were before the call, and [get_jwks] called again sends the
    request again. *)
Theorem failed_jwks_fetch_is_retried (w : World) (self : JWTLocalValidator)
    (tr : list event) (e : exn) (s1 : store) :
  use_local self = false ->
  cache_is_valid w self (_jwks_cache_time self) = false ->
  get_jwks w (self, tr) = (inl e, s1) ->
  same_setup (fst s1) self
  /\ same_jwks_cache (fst s1) self
  /\ exists r self' rest,
       get_jwks w s1
       = (r, (self', (snd s1 ++ HttpGet (jwks_url w self) :: rest)%list)).
Proof.
  intros Hremote Hstale Hrun.
  destruct (fetch_jwks_requests w self tr) as (r & rest & Hfetch).
  rewrite (get_jwks_refetch w self _ tr _ r Hremote Hstale Hfetch) in Hrun.
  destruct r as [e'|v]; [|discriminate].
  injection Hrun as _ <-. cbn [fst snd].
  assert (Hs : same_setup (with_client self) self)
    by (unfold with_client; destruct (_client self); repeat split).
  assert (Hj : same_jwks_cache (with_client self) self)
    by (unfold with_client; destruct (_client self); repeat split).
  split; [exact Hs|]. split; [exact Hj|].
  destruct Hs as (Hl & Hu & Ht & _). destruct Hj as (_ & Hjt).
  replace (jwks_url w self) with (jwks_url w (with_client self))
    by (unfold jwks_url; rewrite Hu; reflexivity).
  apply get_jwks_stale_requests.
  - congruence.
  - unfold cache_is_valid in *. rewrite Hjt, Ht. exact Hstale.
Qed.

Lemma failed_jwks_fetch_is_retried_witness :
  exists r self' rest,
    get_jwks world_jwks_500
      (snd (get_jwks world_jwks_500 (default_validator world_jwks_500, [])))
    = (r, (self',
           (snd (snd (get_jwks world_jwks_500 (default_validator world_jwks_500, [])))
            ++ HttpGet (jwks_url world_jwks_500 (default_validator world_jwks_500))
               :: rest)%list)).
Proof.
  apply (failed_jwks_fetch_is_retried world_jwks_500 (default_validator world_jwks_500) []
           (JWTValidationError ("获取JWKS失败: " ++ string_of_Z 500) "JWKS_FETCH_ERROR"
              (JObj [("status_code", JInt 500);
                     ("url", JStr "http://issuer/api/v1/jwt/.well-known/jwks.json")]))
           (snd (get_jwks world_jwks_500 (default_validator world_jwks_500, [])))).
  - reflexivity.
  - reflexivity.
  - vm_compute. reflexivity.
Defined.

(** ** X7 *)

Lemma py_eq_str_true (v : json) (x : string) : py_eq_str v x = true <-> v = JStr x.
Proof.
  split.
  - destruct v; cbn; try discriminate. intros H. apply String.eqb_eq in H. congruence.
  - intros ->. cbn. apply String.eqb_refl.
Qed.

(** X7.  Over a fresh cached revocation list that is a JSON array, the
    revocation check makes no request and leaves the validator alone, and
    it answers [True] exactly when the SHA-256 hex digest of the token is,
    as a string, an element of the list: no other token is ever reported
    revoked. *)
Theorem blacklist_membership_exact (w : World) (self : JWTLocalValidator)
    (tr : list event) (token : string) (l : list json) :
  cache_is_valid w self (_blacklist_cache_time self) = true ->
  _blacklist_cache self = JList l ->
  exists b,
    _is_token_blacklisted w token (self, tr) = (inr b, (self, tr))
    /\ (b = true <-> In (JStr (sha256_hexdigest w token)) l).
Proof.
  intros Hfresh Hlist.
  rewrite (is_token_blacklisted_fresh w self tr token Hfresh), Hlist.
  destruct l as [|x l'].
  - exists false. split; [reflexivity|]. split; [discriminate|intros []].
  - cbn [truthy py_in].
    exists (existsb (fun v => py_eq_str v (sha256_hexdigest w token)) (x :: l')).
    split; [reflexivity|].
    rewrite existsb_exists. split.
    + intros (v & Hin & Hv). apply py_eq_str_true in Hv. subst v. exact Hin.
    + intros Hin. exists (JStr (sha256_hexdigest w token)).
      split; [exact Hin|]. apply py_eq_str_true. reflexivity.
Qed.

Lemma blacklist_membership_exact_witness :
  exists b,
    _is_token_blacklisted (world_remote 1000 200 200 [] (inr alice_payload)) "tok"
      (validator_with_blacklist, [])
    = (inr b, (validator_with_blacklist, []))
    /\ (b = true <->
        In (JStr (sha256_hexdigest (world_remote 1000 200 200 [] (inr alice_payload)) "tok"))
           [JStr "sha256:old"; JStr "sha256:tok"]).
Proof.
  apply (blacklist_membership_exact (world_remote 1000 200 200 [] (inr alice_payload))
           validator_with_blacklist [] "tok" [JStr "sha256:old"; JStr "sha256:tok"]).
  - reflexivity.
  - reflexivity.
Defined.

(** ** X8 *)

(** X8.  The revocation check of the remote mode never raises and always
    answers: whatever the issuer returns (a transport error, any status, a
    body that is not JSON or not of the expected shape) and whatever the
    cache holds, [_fetch_blacklist] returns a value and
    [_is_token_blacklisted] returns a boolean. *)
Theorem revocation_check_total (w : World) (s : store) (token : string) :
  (exists v s', _fetch_blacklist w s = (inr v, s'))
  /\ (exists b s', _is_token_blacklisted w token s = (inr b, s')).
Proof.
  destruct s as [self tr]. split.
  - destruct (fetch_blacklist_requests w self tr) as (v & rest & H).
    exists v. eexists. exact H.
  - destruct (cache_is_valid w self (_blacklist_cache_time self)) eqn:Hc.
    + rewrite (is_token_blacklisted_fresh w self tr token Hc).
      destruct (py_in _ _); eexists; eexists; reflexivity.
    + destruct (is_token_blacklisted_stale_requests w self tr token Hc)
        as (b & v & rest & H).
      exists b. eexists. exact H.
Qed.

(** ** X9 *)

(** X9.  [_validate_payload_fields] accepts exactly the payloads that carry
    [sub], [username] and a list [roles] and whose [is_active] is absent or
    true.  Of several defects it reports the first in the order [sub],
    [username], [roles] missing, [roles] not a list, user disabled; a
    missing field is named in the details and a disabled user is identified
    by the payload's [sub]. *)
Theorem validate_payload_fields_spec (payload : dict) :
  (_validate_payload_fields payload = inr tt
   <-> valid_shape payload = true /\ user_active payload = true)
  /\ (dict_mem payload "sub" = false ->
      _validate_payload_fields payload
      = inl (JWTValidationError ("令牌缺少必需字段: " ++ "sub") "MISSING_REQUIRED_FIELD"
               (JObj [("missing_field", JStr "sub")])))
  /\ (dict_mem payload "sub" = true -> dict_mem payload "username" = false ->
      _validate_payload_fields payload
      = inl (JWTValidationError ("令牌缺少必需字段: " ++ "username") "MISSING_REQUIRED_FIELD"
               (JObj [("missing_field", JStr "username")])))
  /\ (dict_mem payload "sub" = true -> dict_mem payload "username" = true ->
      dict_mem payload "roles" = false ->
      _validate_payload_fields payload
      = inl (JWTValidationError ("令牌缺少必需字段: " ++ "roles") "MISSING_REQUIRED_FIELD"
               (JObj [("missing_field", JStr "roles")])))
  /\ (dict_mem payload "sub" = true -> dict_mem payload "username" = true ->
      dict_mem payload "roles" = true -> is_list (dict_get payload "roles") = false ->
      _validate_payload_fields payload
      = inl (JWTValidationError "roles字段必须是数组类型" "INVALID_FIELD_TYPE"
               (JObj [("field", JStr "roles"); ("expected_type", JStr "list")])))
  /\ (valid_shape payload = true -> user_active payload = false ->
      _validate_payload_fields payload
      = inl (JWTValidationError "用户账户已被禁用" "USER_INACTIVE"
               (JObj [("user_id", dict_get payload "sub")]))).
Proof.
  unfold valid_shape, user_active, _validate_payload_fields. cbn.
  destruct (dict_mem payload "sub"), (dict_mem payload "username"),
    (dict_mem payload "roles"), (is_list (dict_get payload "roles")),
    (truthy (dict_get_default payload "is_active" (JBool true)));
    cbn; repeat split; intros; try discriminate; try reflexivity;
    try (destruct H; discriminate).
Qed.

Lemma validate_payload_fields_spec_witness :
  _validate_payload_fields [("username", JStr "alice"); ("roles", JStr "admin")]
  = inl (JWTValidationError ("令牌缺少必需字段: " ++ "sub") "MISSING_REQUIRED_FIELD"
           (JObj [("missing_field", JStr "sub")]))
  /\ _validate_payload_fields inactive_payload
     = inl (JWTValidationError "用户账户已被禁用" "USER_INACTIVE"
              (JObj [("user_id", JStr "u1")])).
Proof.
  split.
  - destruct (validate_payload_fields_spec
                [("username", JStr "alice"); ("roles", JStr "admin")]) as (_ & H & _).
    apply H. reflexivity.
  - destruct (validate_payload_fields_spec inactive_payload) as (_ & _ & _ & _ & _ & H).
    apply H; reflexivity.
Defined.

(** ** X10 *)

Lemma select_secret_key_skip (key : json) (rest : list json) :
  is_other_key key = true ->
  select_secret_key (key :: rest) = select_secret_key rest.
Proof.
  destruct key as [| | | | |o]; try discriminate.
  cbn. unfold dict_get. intros H. apply negb_true_iff in H. rewrite H. reflexivity.
Qed.

Lemma select_secret_key_first (key : json) (rest : list json) :
  is_oct_key key = true ->
  select_secret_key (key :: rest) = select_secret_key [key]
  /\ select_secret_key (key :: rest) <> inr JNull.
Proof.
  destruct key as [| | | | |o]; try discriminate.
  cbn. unfold dict_get. intros ->.
  destruct (dict_get_default o "k" (JStr EmptyString)) as [| | |k| |];
    try (split; [reflexivity|discriminate]).
  destruct (urlsafe_b64decode (pad_k k)) as [e|raw]; [split; [reflexivity|discriminate]|].
  destruct (decode_utf8 raw); split; try reflexivity; discriminate.
Qed.

(** X10.  The key-selection loop of [verify_token] passes over every key
    object whose [kty] is not ["oct"] and stops at the first whose [kty] is
    ["oct"]: the outcome is that key's alone.  Keys after it are never
    looked at, not even when it fails to decode; and a key set without a
    symmetric key selects nothing. *)
Theorem select_secret_key_first_oct (others : list json) :
  forallb is_other_key others = true ->
  select_secret_key others = inr JNull
  /\ forall key rest,
       is_oct_key key = true ->
       select_secret_key (others ++ key :: rest) = select_secret_key [key]
       /\ select_secret_key (others ++ key :: rest) <> inr JNull.
Proof.
  induction others as [|o others IH]; intros Hall.
  - split; [reflexivity|]. intros key rest Hk. apply select_secret_key_first. exact Hk.
  - cbn in Hall. apply andb_prop in Hall. destruct Hall as [Ho Hall].
    destruct (IH Hall) as [IH0 IH1]. split.
    + rewrite select_secret_key_skip by exact Ho. exact IH0.
    + intros key rest Hk. cbn [app].
      rewrite select_secret_key_skip by exact Ho. apply IH1. exact Hk.
Qed.

Lemma select_secret_key_first_oct_witness :
  select_secret_key [rsa_key] = inr JNull
  /\ select_secret_key ([rsa_key] ++ broken_oct_key :: [good_oct_key])
     = select_secret_key [broken_oct_key]
  /\ select_secret_key [good_oct_key] = inr (JStr "your-secret-key")
  /\ exists e, select_secret_key [rsa_key; broken_oct_key; good_oct_key] = inl e.
Proof.
  destruct (select_secret_key_first_oct [rsa_key] eq_refl) as [H0 H1].
  split; [exact H0|]. split; [|split].
  - apply (H1 broken_oct_key [good_oct_key]). reflexivity.
  - reflexivity.
  - eexists. reflexivity.
Defined.

(** ** X11 *)

(** The trust material of a remote validator whose configuration and key
    set are cached and fresh. *)
Lemma trust_material_cached (w : World) (self : JWTLocalValidator) (tr : list event)
    (cfg jw : dict) (keys : list json) :
  use_local self = false ->
  cache_is_valid w self (_config_cache_time self) = true ->
  _config_cache self = JObj cfg ->
  cache_is_valid w self (_jwks_cache_time self) = true ->
  _jwks_cache self = JObj jw ->
  py_iter (dict_get_default jw "keys" (JList [])) = inr keys ->
  verify_token_trust_material w (self, tr)
  = match select_secret_key keys with
    | inr secret_key =>
        (inr (dict_get_default cfg "algorithm" (JStr "HS256"),
              dict_get_default cfg "issuer" JNull,
              dict_get_default cfg "audience" JNull,
              secret_key), (self, tr))
    | inl e => (inl e, (self, tr))
    end.
Proof.
  intros Hremote Hcf Hc Hjf Hj Hkeys.
  unfold verify_token_trust_material.
  unfold bind at 1. rewrite (get_jwt_config_fresh w self tr Hremote Hcf), Hc.
  cbn [lift py_get]. unfold bind at 1. unfold ret at 1.
  unfold bind at 1. unfold ret at 1. unfold bind at 1. unfold ret at 1.
  unfold bind at 1. rewrite (get_jwks_fresh w self tr Hremote Hjf), Hj.
  cbn [lift py_get]. unfold bind at 1. unfold ret at 1.
  rewrite Hkeys. cbn [lift]. unfold bind at 1. unfold ret at 1.
  destruct (select_secret_key keys); reflexivity.
Qed.

(** X11.  When the key-selection loop selects no key, or a key that decodes
    to the empty string, [verify_token] rejects every token with
    [NO_SECRET_KEY] before decoding it: with the configuration and the key
    set in the cache, nothing is decoded, nothing is requested and the
    validator is unchanged. *)
Theorem no_key_rejects_before_decoding (w : World) (self : JWTLocalValidator)
    (tr : list event) (token : string) (cfg jw : dict) (keys : list json) :
  use_local self = false ->
  cache_is_valid w self (_config_cache_time self) = true ->
  _config_cache self = JObj cfg ->
  cache_is_valid w self (_jwks_cache_time self) = true ->
  _jwks_cache self = JObj jw ->
  py_iter (dict_get_default jw "keys" (JList [])) = inr keys ->
  select_secret_key keys = inr JNull \/ select_secret_key keys = inr (JStr EmptyString) ->
  verify_token w token (self, tr) = (inr no_key_result, (self, tr))
  /\ result_success no_key_result = JBool false
  /\ result_error_code no_key_result = JStr "NO_SECRET_KEY".
Proof.
  intros Hremote Hcf Hc Hjf Hj Hkeys Hsel. split; [|split; reflexivity].
  rewrite verify_token_remote by exact Hremote.
  unfold try_except, verify_token_try. unfold bind at 1.
  rewrite (trust_material_cached w self tr cfg jw keys Hremote Hcf Hc Hjf Hj Hkeys).
  destruct Hsel as [-> | ->]; reflexivity.
Qed.

Lemma no_key_rejects_before_decoding_witness :
  verify_token (world_remote 1000 200 200 [] (inr alice_payload)) "tok"
    (validator_with_jwks (JObj [("keys", JList [rsa_key])]), [])
  = (inr no_key_result, (validator_with_jwks (JObj [("keys", JList [rsa_key])]), [])).
Proof.
  apply (no_key_rejects_before_decoding
           (world_remote 1000 200 200 [] (inr alice_payload))
           (validator_with_jwks (JObj [("keys", JList [rsa_key])])) [] "tok"
           [ ("algorithm", JStr "HS256"); ("issuer", JStr "ml-user-service");
             ("audience", JStr "microservices") ]
           [("keys", JList [rsa_key])] [rsa_key]).
  - reflexivity.
  - reflexivity.
  - reflexivity.
  - reflexivity.
  - reflexivity.
  - reflexivity.
  - left. reflexivity.
Defined.

(** ** X12 *)

Lemma pads_enough (data : string) :
  (required_pads data <= 4 - String.length (local_jwks_k data) mod 4)%nat.
Proof.
  induction data as [|x|x y|x y z r IH] using string_ind3.
  - cbn. lia.
  - destruct x as [x0 x1 x2 x3 x4 x5 x6 x7]. rewrite local_jwks_k_one. cbn. lia.
  - destruct x as [x0 x1 x2 x3 x4 x5 x6 x7].
    destruct y as [y0 y1 y2 y3 y4 y5 y6 y7]. rewrite local_jwks_k_two. cbn. lia.
  - destruct (local_jwks_k_three x y z r) as (s1 & s2 & s3 & s4 & Hk & _).
    rewrite Hk, required_pads_three.
    change (String.length (String (urlsafe_digit s1) (String (urlsafe_digit s2)
              (String (urlsafe_digit s3) (String (urlsafe_digit s4) (local_jwks_k r))))))
      with (4 + String.length (local_jwks_k r))%nat.
    replace (4 + String.length (local_jwks_k r))%nat
      with (String.length (local_jwks_k r) + 1 * 4)%nat by lia.
    rewrite Nat.Div0.mod_add. exact IH.
Qed.

Lemma published_k_decodes (data : string) :
  urlsafe_b64decode (pad_k (local_jwks_k data)) = inr data.
Proof.
  destruct (decode_with_enough_pads data _ (pads_enough data)) as [Ha Hd].
  unfold urlsafe_b64decode, a2b_base64, pad_k. rewrite Ha. exact Hd.
Qed.

(** X12.  A downstream validator that caches what the issuer publishes
    verifies with the issuer's own parameters.  When its cached
    configuration and key set are the [_get_local_config] and
    [_get_local_jwks] of an issuer whose secret is valid UTF-8, the key
    selection of [verify_token] recovers exactly that secret, and the
    algorithm, issuer and audience it hands to the decoder are those the
    issuer uses in local mode. *)
Theorem remote_recovers_issuer_material (w issuer : World)
    (self : JWTLocalValidator) (tr : list event) :
  use_local self = false ->
  cache_is_valid w self (_config_cache_time self) = true ->
  _config_cache self = JObj (_get_local_config issuer) ->
  cache_is_valid w self (_jwks_cache_time self) = true ->
  _jwks_cache self = _get_local_jwks issuer ->
  utf8_valid (jwt_secret_key (settings issuer)) = true ->
  verify_token_trust_material w (self, tr)
  = (inr (JStr (jwt_algorithm (settings issuer)),
          JStr (app_name (settings issuer)),
          JStr "microservices",
          JStr (jwt_secret_key (settings issuer))), (self, tr)).
Proof.
  intros Hremote Hcf Hc Hjf Hj Hutf.
  rewrite (trust_material_cached w self tr (_get_local_config issuer)
             [("keys", JList [JObj [("kty", JStr "oct");
                                    ("k", JStr (local_jwks_k (jwt_secret_key (settings issuer))));
                                    ("alg", JStr (jwt_algorithm (settings issuer)));
                                    ("use", JStr "sig");
                                    ("kid", JStr "user-service-key-1")]])]
             [JObj [("kty", JStr "oct");
                    ("k", JStr (local_jwks_k (jwt_secret_key (settings issuer))));
                    ("alg", JStr (jwt_algorithm (settings issuer)));
                    ("use", JStr "sig");
                    ("kid", JStr "user-service-key-1")]]
             Hremote Hcf Hc Hjf Hj eq_refl).
  cbn [select_secret_key py_get dict_get_default dict_lookup String.eqb Ascii.eqb
       Bool.eqb py_eq_str].
  rewrite published_k_decodes. unfold decode_utf8. rewrite Hutf. reflexivity.
Qed.

Lemma remote_recovers_issuer_material_witness :
  verify_token_trust_material (world_remote 1000 200 200 [] (inr alice_payload))
    (validator_with_jwks (_get_local_jwks (world_local (inr alice_payload) (inr false))), [])
  = (inr (JStr "HS256", JStr "ml-user-service", JStr "microservices",
          JStr "your-secret-key"),
     (validator_with_jwks (_get_local_jwks (world_local (inr alice_payload) (inr false))),
      [])).
Proof.
  apply (remote_recovers_issuer_material
           (world_remote 1000 200 200 [] (inr alice_payload))
           (world_local (inr alice_payload) (inr false))
           (validator_with_jwks
              (_get_local_jwks (world_local (inr alice_payload) (inr false)))) []).
  - reflexivity.
  - reflexivity.
  - reflexivity.
  - reflexivity.
  - reflexivity.
  - reflexivity.
Defined.

(** ** X13 *)



(** ** X14 *)

Lemma handlers_result_shape (e : exn) (s : store) :
  exists m d s',
    verification_handlers e s
    = (inr (JObj [("success", JBool false); ("message", m); ("data", d)]), s').
Proof. destruct e; eexists; eexists; eexists; reflexivity. Qed.

Lemma check_token_result_shape (w : World) (is_blacklisted : string -> M bool)
    (token secret_key : string) (algorithm issuer audience : json)
    (s s' : store) (r : json) :
  check_token w is_blacklisted token secret_key algorithm issuer audience s = (inr r, s') ->
  (exists payload, r = success_result payload)
  \/ (exists m d, r = JObj [("success", JBool false); ("message", m); ("data", d)]).
Proof.
  unfold check_token. munfold. cbn.
  destruct (jwt_decode w token secret_key algorithm issuer audience) as [e|payload];
    cbn; [discriminate|].
  destruct (_validate_payload_fields payload) as [e|[]]; cbn; [discriminate|].
  destruct (wrong_token_type (dict_get payload "type")).
  - intros H. injection H as <- _. right. eexists; eexists; reflexivity.
  - destruct (is_blacklisted token _) as [[e|[|]] s2]; intros H;
      try discriminate; injection H as <- _.
    + right. eexists; eexists; reflexivity.
    + left. eexists. reflexivity.
Qed.

Lemma verify_token_result_shape (w : World) (token : string) (s : store) :
  exists r s',
    verify_token w token s = (inr r, s')
    /\ ((exists payload, r = success_result payload)
        \/ (exists m d, r = JObj [("success", JBool false); ("message", m); ("data", d)])).
Proof.
  destruct (use_local (fst s)) eqn:Hmode.
  - rewrite verify_token_local by exact Hmode.
    eexists; eexists. split; [reflexivity|]. right. eexists; eexists; reflexivity.
  - rewrite verify_token_remote by exact Hmode. unfold try_except.
    destruct (verify_token_try w token s) as [[e|r] s1] eqn:Htry.
    + destruct (handlers_result_shape e s1) as (m & d & s' & H).
      rewrite H. eexists; eexists. split; [reflexivity|].
      right. eexists; eexists; reflexivity.
    + exists r, s1. split; [reflexivity|].
      unfold verify_token_try in Htry. unfold bind at 1 in Htry.
      destruct (verify_token_trust_material w s) as [[e|[[[alg iss] aud] key]] s0];
        [discriminate|].
      destruct key as [| | |[|c k]| |];
        try (injection Htry as <- _; right; eexists; eexists; reflexivity).
      exact (check_token_result_shape w _ _ _ _ _ _ _ _ _ Htry).
Qed.

Lemma close_run (self : JWTLocalValidator) (tr : list event) :
  exists self',
    close (self, tr) = (inr tt, (self', tr))
    /\ _client self' = false
    /\ (_client self = false -> self' = self).
Proof.
  unfold close. munfold. cbn. destruct (_client self) eqn:Hc.
  - eexists. split; [reflexivity|]. split; [reflexivity|discriminate].
  - exists self. split; [reflexivity|]. split; [exact Hc|reflexivity].
Qed.

(** X14.  [verify_token_simple] never raises and always returns a boolean:
    [True] exactly when [verify_token], on a validator built with the
    default arguments, accepts the token; and it leaves no client open.
    Where the settings select the local mode, it returns [False] for every
    token, since the blocking [verify_token] only returns its sentinel
    there. *)
Theorem verify_token_simple_spec (w : World) (token : string) (tr : list event) :
  exists b s',
    verify_token_simple w token tr = (inr (JBool b), s')
    /\ _client (fst s') = false
    /\ (b = true <->
        exists payload,
          fst (verify_token w token (default_validator w, tr))
          = inr (success_result payload))
    /\ (auth_use_local_jwt (settings w) = true ->
        b = false /\ s' = (default_validator w, tr)).
Proof.
  unfold verify_token_simple, try_finally. unfold bind at 1.
  destruct (use_local (default_validator w)) eqn:Hmode.
  - rewrite verify_token_local by exact Hmode.
    destruct (close_run (default_validator w) tr) as (self' & Hclose & Hc & Hsame).
    unfold py_and. munfold. cbn -[close default_validator].
    rewrite Hclose. exists false, (self', tr).
    split; [reflexivity|]. split; [exact Hc|]. split.
    + split; [discriminate|]. intros (payload & H). cbn in H. discriminate H.
    + intros _. split; [reflexivity|]. rewrite Hsame; reflexivity.
  - destruct (verify_token_result_shape w token (default_validator w, tr))
      as (r & [self1 tr1] & Hrun & Hshape).
    rewrite Hrun.
    destruct (close_run self1 tr1) as (self' & Hclose & Hc & _).
    destruct Hshape as [(payload & ->)|(m & d & ->)].
    + unfold py_and. munfold. cbn -[close].
      rewrite Hclose. exists true, (self', tr1).
      split; [reflexivity|]. split; [exact Hc|]. split.
      * split; [|reflexivity]. intros _. exists payload. reflexivity.
      * intros Hl. unfold default_validator, init in Hmode. cbn in Hmode. congruence.
    + unfold py_and. munfold. cbn -[close].
      rewrite Hclose. exists false, (self', tr1).
      split; [reflexivity|]. split; [exact Hc|]. split.
      * split; [discriminate|]. intros (payload & H). cbn in H. discriminate H.
      * intros Hl. unfold default_validator, init in Hmode. cbn in Hmode. congruence.
Qed.

Lemma verify_token_simple_spec_witness :
  verify_token_simple (world_local (inr alice_payload) (inr false)) "tok" []
  = (inr (JBool false),
     (default_validator (world_local (inr alice_payload) (inr false)), []))
  /\ exists s',
       verify_token_simple (world_remote 2000000000 200 200 [] (inr alice_payload)) "tok" []
       = (inr (JBool true), s').
Proof.
  split.
  - destruct (verify_token_simple_spec (world_local (inr alice_payload) (inr false))
                "tok" []) as (b & s' & Hrun & _ & _ & Hlocal).
    destruct (Hlocal eq_refl) as [-> ->]. exact Hrun.
  - destruct (verify_token_simple_spec
                (world_remote 2000000000 200 200 [] (inr alice_payload)) "tok" [])
      as (b & s' & Hrun & _ & Hiff & _).
    exists s'. rewrite Hrun.
    replace b with true; [reflexivity|].
    symmetry. apply Hiff. exists alice_payload. vm_compute. reflexivity.
Defined.

(** ** X15 *)

Lemma handlers_log (e : exn) (s : store) :
  exists r level m,
    verification_handlers e s = (inr r, (fst s, (snd s ++ [Log level m])%list)).
Proof. destruct e; eexists; eexists; eexists; reflexivity. Qed.

Lemma is_log_not_http (log : list event) :
  Forall is_log log -> Forall (fun e => ~ is_http e) log.
Proof.
  intros H. induction H as [|e l He _ IH]; constructor; [|exact IH].
  destruct e; cbn in *; tauto.
Qed.

(** X15.  The local mode is offline.  With [use_local] set,
    [verify_token_async] sends no HTTP request and leaves every field of
    the validator as it was, whatever the token; what leaves the validator
    is the decoding, at most one query of the revocation store, and log
    lines.  [get_jwks] and [get_jwt_config] return the locally built
    documents without any call. *)
Theorem local_mode_is_offline (w : World) (token : string)
    (self : JWTLocalValidator) (tr : list event) :
  use_local self = true ->
  (exists r added,
     verify_token_async w token (self, tr) = (inr r, (self, (tr ++ added)%list))
     /\ Forall (fun e => ~ is_http e) added)
  /\ get_jwks w (self, tr) = (inr (_get_local_jwks w), (self, tr))
  /\ get_jwt_config w (self, tr) = (inr (JObj (_get_local_config w)), (self, tr)).
Proof.
  intros Hlocal. split; [|split].
  - rewrite verify_token_async_local_pipeline by exact Hlocal.
    fold (local_decoded w token).
    destruct (early_stage_code (local_decoded w token)) as [code|] eqn:Hcode.
    + destruct (check_token_early w (store_is_blacklisted w) token _ _ _ _ (self, tr)
                  code Hcode) as (r & log & Hrun & _ & _ & Hlog).
      unfold local_decoded in *. rewrite Hrun. cbn [fst snd].
      exists r, (JwtDecode token :: log). split; [reflexivity|].
      constructor; [intros []|apply is_log_not_http; exact Hlog].
    + destruct (local_decoded w token) as [e'|payload] eqn:Hd.
      * destruct e'; discriminate Hcode.
      * unfold try_except. unfold local_decoded in Hd.
        rewrite (check_token_passes w (store_is_blacklisted w) token _ _ _ _ (self, tr)
                   payload Hd Hcode).
        rewrite store_is_blacklisted_run. cbn [fst snd].
        destruct (JWTService_is_blacklisted w token) as [e|[|]].
        -- destruct (handlers_log e
                       (self, ((tr ++ [JwtDecode token]) ++ [BlacklistStoreQuery token])%list))
             as (r & level & m & Hh).
           rewrite Hh. cbn [fst snd]. exists r.
           exists [JwtDecode token; BlacklistStoreQuery token; Log level m].
           split; [rewrite <- !app_assoc; reflexivity|].
           repeat constructor; intros [].
        -- eexists. exists [JwtDecode token; BlacklistStoreQuery token].
           split; [rewrite <- app_assoc; reflexivity|].
           repeat constructor; intros [].
        -- eexists. exists [JwtDecode token; BlacklistStoreQuery token].
           split; [rewrite <- app_assoc; reflexivity|].
           repeat constructor; intros [].
  - unfold get_jwks. munfold. cbn. rewrite Hlocal. reflexivity.
  - unfold get_jwt_config. munfold. cbn. rewrite Hlocal. reflexivity.
Qed.

Lemma local_mode_is_offline_witness :
  exists r added,
    verify_token_async world_store_down "tok" (default_validator world_store_down, [])
    = (inr r, (default_validator world_store_down, added))
    /\ Forall (fun e => ~ is_http e) added.
Proof.
  destruct (local_mode_is_offline world_store_down "tok"
              (default_validator world_store_down) [] eq_refl)
    as ((r & added & Hrun & Hadded) & _).
  exists r, added. split; [exact Hrun|exact Hadded].
Defined.

(** ** X16 *)

Section SetupInvariant.

Variable w : World.
Variable P : JWTLocalValidator -> Prop.
Hypothesis HP : setup_property P.

Lemma setup_fetch_invariant : fetch_invariant P.
Proof. intros v Hv. apply (HP v Hv). Qed.

Lemma preserves_get_blacklist_cache : preserves P (_get_blacklist_cache w).
Proof.
  unfold _get_blacklist_cache.
  preserves_step; [preserves_step|].
  preserves_step; [apply preserves_is_cache_valid|].
  preserves_step; [|repeat preserves_step].
  destruct (negb a0); [|preserves_step].
  preserves_step; [apply preserves_fetch_blacklist, setup_fetch_invariant|].
  preserves_step; preserves_step; intros v Hv; apply (HP v Hv).
Qed.

Lemma preserves_is_token_blacklisted token : preserves P (_is_token_blacklisted w token).
Proof.
  unfold _is_token_blacklisted, logging.
  preserves_step.
  - preserves_step; [apply preserves_get_blacklist_cache|]. preserves_step.
  - repeat preserves_step.
Qed.

Lemma preserves_store_is_blacklisted token : preserves P (store_is_blacklisted w token).
Proof. unfold store_is_blacklisted. repeat preserves_step. Qed.

Lemma preserves_check_token is_blacklisted token key alg iss aud :
  (forall t, preserves P (is_blacklisted t)) ->
  preserves P (check_token w is_blacklisted token key alg iss aud).
Proof.
  intros Hb. unfold check_token.
  preserves_step; [preserves_step|].
  preserves_step; [preserves_step|].
  preserves_step; [preserves_step|].
  destruct (wrong_token_type (dict_get a0 "type")); [preserves_step|].
  preserves_step; [apply Hb|].
  destruct a2; preserves_step.
Qed.

Lemma preserves_handlers e : preserves P (verification_handlers e).
Proof. destruct e; unfold verification_handlers, logging; repeat preserves_step. Qed.

Lemma preserves_verify_token token : preserves P (verify_token w token).
Proof.
  unfold verify_token.
  preserves_step; [preserves_step|].
  destruct (use_local a); [preserves_step|].
  preserves_step; [|apply preserves_handlers].
  unfold verify_token_try.
  preserves_step.
  - apply preserves_trust_material.
    + apply setup_fetch_invariant.
    + intros v c t Hv. apply (HP v Hv).
    + intros v c t Hv. apply (HP v Hv).
  - destruct a0 as [[[alg iss] aud] key].
    destruct key as [| | |[|c k]| |];
      first [ apply preserves_check_token; intros t; apply preserves_is_token_blacklisted
            | apply preserves_ret ].
Qed.

Lemma preserves_verify_token_async token : preserves P (verify_token_async w token).
Proof.
  unfold verify_token_async.
  preserves_step; [preserves_step|].
  destruct (use_local a); [|apply preserves_verify_token].
  unfold _verify_token_local_async, _verify_token_local_async_try.
  preserves_step; [|apply preserves_handlers].
  preserves_step; [preserves_step|].
  preserves_step; [preserves_step|].
  preserves_step; [preserves_step|].
  apply preserves_check_token. intros t. apply preserves_store_is_blacklisted.
Qed.

Lemma preserves_inspection token :
  preserves P (is_token_expired w token)
  /\ preserves P (get_token_expiry w token)
  /\ preserves P (extract_user_info w token).
Proof.
  split; [|split].
  - unfold is_token_expired. preserves_step.
    + preserves_step; [preserves_step|]. preserves_step; [preserves_step|].
      destruct (is_None (dict_get a0 "exp")); [preserves_step|].
      destruct (as_int (dict_get a0 "exp")); preserves_step.
    + destruct e; preserves_step.
  - unfold get_token_expiry. preserves_step.
    + preserves_step; [preserves_step|]. preserves_step; [preserves_step|].
      destruct (is_None (dict_get a0 "exp")); [preserves_step|].
      destruct (as_int (dict_get a0 "exp")); repeat preserves_step.
    + destruct e; preserves_step.
  - unfold extract_user_info, logging. preserves_step.
    + repeat preserves_step.
    + destruct e; repeat preserves_step.
Qed.

Lemma preserves_housekeeping :
  preserves P refresh_cache /\ preserves P refresh_blacklist_cache /\ preserves P close.
Proof.
  split; [|split].
  - unfold refresh_cache.
    repeat (preserves_step; [preserves_step; intros v Hv; apply (HP v Hv)|]).
    preserves_step; intros v Hv; apply (HP v Hv).
  - unfold refresh_blacklist_cache. preserves_step. intros v Hv. apply (HP v Hv).
  - unfold close. preserves_step; [preserves_step|].
    destruct (_client a); preserves_step. intros v Hv. apply (HP v Hv).
Qed.

End SetupInvariant.

Lemma same_setup_is_setup_property (self : JWTLocalValidator) :
  setup_property (fun v => same_setup v self).
Proof. intros v Hv. repeat split; apply Hv. Qed.

(** X16.  The fields fixed at construction, [use_local],
    [user_service_url], [cache_ttl] and [blacklist_cache_ttl], are never
    changed: not by [verify_token] or [verify_token_async], not by the
    inspection utilities, not by [refresh_cache], [refresh_blacklist_cache]
    or [close], whatever the token and whatever the outside world does. *)
Theorem construction_fields_never_change (w : World) (token : string) (s : store) :
  same_setup (fst (snd (verify_token w token s))) (fst s)
  /\ same_setup (fst (snd (verify_token_async w token s))) (fst s)
  /\ same_setup (fst (snd (is_token_expired w token s))) (fst s)
  /\ same_setup (fst (snd (get_token_expiry w token s))) (fst s)
  /\ same_setup (fst (snd (extract_user_info w token s))) (fst s)
  /\ same_setup (fst (snd (refresh_cache s))) (fst s)
  /\ same_setup (fst (snd (refresh_blacklist_cache s))) (fst s)
  /\ same_setup (fst (snd (close s))) (fst s).
Proof.
  pose proof (same_setup_is_setup_property (fst s)) as HP.
  assert (H0 : same_setup (fst s) (fst s)) by (repeat split).
  destruct (preserves_inspection w (fun v => same_setup v (fst s)) token)
    as (He & Hg & Hx).
  destruct (preserves_housekeeping _ HP) as (Hr & Hb & Hc).
  repeat split;
    first [ apply (preserves_verify_token w _ HP token s H0)
          | apply (preserves_verify_token_async w _ HP token s H0)
          | apply (He s H0) | apply (Hg s H0) | apply (Hx s H0)
          | apply (Hr s H0) | apply (Hb s H0) | apply (Hc s H0) ].
Qed.

(** ** X17 *)

Lemma rstrip_spec (c : ascii) (s : string) :
  (exists n, s = rstrip c s ++ repeat_char c n)
  /\ string_last (rstrip c s) <> Some c.
Proof.
  induction s as [|x s [[n Hn] Hlast]].
  - split; [exists 0%nat; reflexivity|discriminate].
  - cbn [rstrip]. destruct (rstrip c s) as [|y r] eqn:Hr.
    + destruct (Ascii.eqb x c) eqn:Hx.
      * apply Ascii.eqb_eq in Hx. subst x. split; [|discriminate].
        exists (S n). cbn. rewrite Hn at 1. reflexivity.
      * split.
        -- exists n. cbn. rewrite Hn at 1. reflexivity.
        -- cbn. intros H. injection H as ->. rewrite Ascii.eqb_refl in Hx. discriminate.
    + split.
      * exists n. cbn. rewrite Hn at 1. reflexivity.
      * exact Hlast.
Qed.

Lemma rstrip_repeat (c : ascii) (n : nat) : rstrip c (repeat_char c n) = EmptyString.
Proof.
  induction n as [|n IHn]; [reflexivity|].
  cbn. rewrite IHn, Ascii.eqb_refl. reflexivity.
Qed.

Lemma rstrip_unique (c : ascii) (a : string) (n : nat) :
  string_last a <> Some c -> rstrip c (a ++ repeat_char c n) = a.
Proof.
  induction a as [|x a IH]; intros Hlast.
  - cbn. apply rstrip_repeat.
  - cbn [append rstrip]. destruct a as [|y a'].
    + cbn [append]. rewrite rstrip_repeat.
      destruct (Ascii.eqb x c) eqn:Hx; [|reflexivity].
      apply Ascii.eqb_eq in Hx. subst x. exfalso. apply Hlast. reflexivity.
    + rewrite IH by exact Hlast. reflexivity.
Qed.

(** X17.  A new validator normalises the base URL.  In remote mode
    [user_service_url] is the configured URL (an unset URL counts as empty)
    with all its trailing slashes removed and nothing else, so it never ends
    with a slash, and two configurations that differ only in trailing
    slashes build the same validator; in local mode it is empty.  An
    explicit [use_local] argument overrides the settings. *)
Theorem init_normalises_url (w : World) (cache_ttl blacklist_cache_ttl : Z)
    (use_local_arg : option bool) :
  use_local (init w cache_ttl blacklist_cache_ttl use_local_arg)
  = match use_local_arg with
    | Some b => b
    | None => auth_use_local_jwt (settings w)
    end
  /\ (use_local (init w cache_ttl blacklist_cache_ttl use_local_arg) = true ->
      user_service_url (init w cache_ttl blacklist_cache_ttl use_local_arg) = EmptyString)
  /\ (use_local (init w cache_ttl blacklist_cache_ttl use_local_arg) = false ->
      (exists n,
         configured_url w
         = user_service_url (init w cache_ttl blacklist_cache_ttl use_local_arg)
           ++ repeat_char "/"%char n)
      /\ string_last (user_service_url (init w cache_ttl blacklist_cache_ttl use_local_arg))
         <> Some "/"%char
      /\ forall w2 n,
           auth_use_local_jwt (settings w2) = auth_use_local_jwt (settings w) ->
           configured_url w2 = configured_url w ++ repeat_char "/"%char n ->
           init w2 cache_ttl blacklist_cache_ttl use_local_arg
           = init w cache_ttl blacklist_cache_ttl use_local_arg).
Proof.
  unfold init, configured_url. cbn [use_local user_service_url].
  split; [reflexivity|]. split.
  - intros ->. reflexivity.
  - intros Hremote. rewrite Hremote. cbn [negb].
    destruct (rstrip_spec "/"%char
                (match auth_user_service_url (settings w) with
                 | Some u => u
                 | None => EmptyString
                 end)) as [[n Hn] Hlast].
    split; [exists n; exact Hn|]. split; [exact Hlast|].
    intros w2 m Hmode Hurl.
    assert (Hl : match use_local_arg with
                 | Some b => b
                 | None => auth_use_local_jwt (settings w2)
                 end = false).
    { destruct use_local_arg; [exact Hremote|rewrite Hmode; exact Hremote]. }
    rewrite Hl. cbn [negb]. rewrite Hurl.
    rewrite Hn at 1. rewrite string_app_assoc, repeat_char_add.
    rewrite rstrip_unique by exact Hlast. reflexivity.
Qed.

Lemma init_normalises_url_witness :
  user_service_url
    (init (sample_world remote_settings_slashes 1000 no_http (inr alice_payload) (inr false))
       3600 300 None)
  = "http://issuer"
  /\ init (sample_world remote_settings_slashes 1000 no_http (inr alice_payload) (inr false))
       3600 300 None
     = init (sample_world remote_settings 1000 no_http (inr alice_payload) (inr false))
         3600 300 None.
Proof.
  split; [reflexivity|].
  destruct (init_normalises_url
              (sample_world remote_settings 1000 no_http (inr alice_payload) (inr false))
              3600 300 None) as (_ & _ & H).
  destruct (H eq_refl) as (_ & _ & Hsame).
  apply (Hsame (sample_world remote_settings_slashes 1000 no_http (inr alice_payload)
                  (inr false)) 2%nat); reflexivity.
Defined.

(** ** X18 *)

Lemma fetch_jwt_config_200 (w : World) (self : JWTLocalValidator) (tr : list event)
    (o : dict) :
  client_get w (config_url w self) = inr (Response 200 (inr (JObj o))) ->
  _fetch_jwt_config w (self, tr)
  = (inr (dict_get_default o "data" (JObj o)),
     (with_client self, (tr ++ [HttpGet (config_url w self)])%list)).
Proof.
  intros Hget.
  unfold _fetch_jwt_config, _get_client, http_get, with_client, config_url in *.
  munfold. cbn.
  destruct (_client self); cbn; rewrite Hget; reflexivity.
Qed.

(** X18.  The configuration endpoint may answer with the configuration
    itself or with the configuration wrapped in [{"data": ...}]: for a
    configuration object without a [data] member, both answers make
    [get_jwt_config] return and cache the same configuration.  (A bare
    configuration that has a [data] member is replaced by that member.) *)
Theorem config_wrapper_is_optional (w_bare w_wrapped : World)
    (self : JWTLocalValidator) (tr : list event) (cfg : dict) :
  use_local self = false ->
  cache_is_valid w_bare self (_config_cache_time self) = false ->
  cache_is_valid w_wrapped self (_config_cache_time self) = false ->
  auth_jwt_config_endpoint (settings w_wrapped) = auth_jwt_config_endpoint (settings w_bare) ->
  utcnow w_wrapped = utcnow w_bare ->
  dict_lookup cfg "data" = None ->
  client_get w_bare (config_url w_bare self) = inr (Response 200 (inr (JObj cfg))) ->
  client_get w_wrapped (config_url w_wrapped self)
  = inr (Response 200 (inr (JObj [("data", JObj cfg)]))) ->
  get_jwt_config w_bare (self, tr)
  = (inr (JObj cfg),
     (set_config_cache (JObj cfg) (Some (utcnow w_bare)) (with_client self),
      (tr ++ [HttpGet (config_url w_bare self)])%list))
  /\ get_jwt_config w_wrapped (self, tr) = get_jwt_config w_bare (self, tr).
Proof.
  intros Hremote Hs1 Hs2 Hep Hnow Hnodata Hbare Hwrapped.
  assert (H1 : get_jwt_config w_bare (self, tr)
               = (inr (JObj cfg),
                  (set_config_cache (JObj cfg) (Some (utcnow w_bare)) (with_client self),
                   (tr ++ [HttpGet (config_url w_bare self)])%list))).
  { rewrite (get_jwt_config_refetch w_bare self (with_client self) tr
               (tr ++ [HttpGet (config_url w_bare self)])%list (inr (JObj cfg))
               Hremote Hs1).
    - reflexivity.
    - rewrite (fetch_jwt_config_200 w_bare self tr cfg Hbare).
      unfold dict_get_default. rewrite Hnodata. reflexivity. }
  split; [exact H1|]. rewrite H1.
  rewrite (get_jwt_config_refetch w_wrapped self (with_client self) tr
             (tr ++ [HttpGet (config_url w_wrapped self)])%list (inr (JObj cfg))
             Hremote Hs2).
  - unfold config_url. rewrite Hep, Hnow. reflexivity.
  - rewrite (fetch_jwt_config_200 w_wrapped self tr [("data", JObj cfg)] Hwrapped).
    reflexivity.
Qed.

Lemma config_wrapper_is_optional_witness :
  get_jwt_config (world_remote 1000 200 200 [] (inr alice_payload))
    (default_validator (world_remote 1000 200 200 [] (inr alice_payload)), [])
  = get_jwt_config
      (sample_world remote_settings 1000 issuer_http_bare (inr alice_payload) (inr false))
      (default_validator (world_remote 1000 200 200 [] (inr alice_payload)), []).
Proof.
  apply (config_wrapper_is_optional
           (sample_world remote_settings 1000 issuer_http_bare (inr alice_payload) (inr false))
           (world_remote 1000 200 200 [] (inr alice_payload))
           (default_validator (world_remote 1000 200 200 [] (inr alice_payload))) []
           [ ("algorithm", JStr "HS256"); ("issuer", JStr "ml-user-service");
             ("audience", JStr "microservices") ]);
    reflexivity.
Defined.

(** ** X19 *)

(** X19.  The superuser dependency, resolved through the chain
    [get_current_user], [get_current_active_user], [get_current_superuser],
    yields a user exactly when the token service returned a user who is
    active and a superuser.  Otherwise the request fails with the first
    failure of the chain: 401 with the [WWW-Authenticate: Bearer] header when
    the service raised or returned no user, whatever the cause; 400 for a
    disabled user, superuser or not; 403 for an active user who is not a
    superuser. *)
Theorem superuser_dependency_spec (User : Type) (is_active is_superuser : User -> bool)
    (service : string + option User) :
  (forall u,
     resolve_current_superuser User is_active is_superuser service = inr u
     <-> service = inr (Some u) /\ is_active u = true /\ is_superuser u = true)
  /\ ((forall u, service <> inr (Some u)) ->
      resolve_current_superuser User is_active is_superuser service
      = inl credentials_exception)
  /\ (forall u,
        service = inr (Some u) -> is_active u = false ->
        exists e,
          resolve_current_superuser User is_active is_superuser service = inl e
          /\ status_code e = 400)
  /\ (forall u,
        service = inr (Some u) -> is_active u = true -> is_superuser u = false ->
        exists e,
          resolve_current_superuser User is_active is_superuser service = inl e
          /\ status_code e = 403).
Proof.
  unfold resolve_current_superuser, resolve_current_active_user, depends,
    get_current_user, get_current_active_user, get_current_superuser.
  split; [|split; [|split]].
  - intros u. destruct service as [e|[u'|]].
    + split; [discriminate|]. intros [H _]. discriminate H.
    + destruct (is_active u') eqn:Ha; cbn.
      * destruct (is_superuser u') eqn:Hs; cbn.
        -- split.
           ++ intros H. injection H as <-. repeat split; assumption.
           ++ intros [H _]. injection H as <-. reflexivity.
        -- split; [discriminate|]. intros (H & _ & Hs').
           injection H as <-. congruence.
      * split; [discriminate|]. intros (H & Ha' & _). injection H as <-. congruence.
    + split; [discriminate|]. intros [H _]. discriminate H.
  - intros Hno. destruct service as [e|[u'|]]; try reflexivity.
    exfalso. exact (Hno u' eq_refl).
  - intros u -> Ha. rewrite Ha. cbn. eexists. split; reflexivity.
  - intros u -> Ha Hs. rewrite Ha. cbn. rewrite Hs. cbn. eexists. split; reflexivity.
Qed.

Lemma superuser_dependency_spec_witness :
  exists e,
    resolve_current_superuser sample_user fst snd (inr (Some (false, true))) = inl e
    /\ status_code e = 400.
Proof.
  destruct (superuser_dependency_spec sample_user fst snd (inr (Some (false, true))))
    as (_ & _ & H & _).
  apply (H (false, true)); reflexivity.
Defined.

(** ** X20 *)

Lemma first_supported_language_supported (is_supported_language : string -> bool)
    (languages : list string) (lang_code : string) :
  first_supported_language is_supported_language languages = Some lang_code ->
  is_supported_language lang_code = true.
Proof.
  induction languages as [|lang rest IH]; [discriminate|].
  cbn. destruct (is_supported_language (normalise_language lang)) eqn:Hs.
  - intros H. injection H as <-. exact Hs.
  - exact IH.
Qed.

(** X20.  [get_request_language] answers with a supported language or with
    the default, never with anything else a client sent; and a non-empty,
    supported [X-Language] header is returned as it is, whatever
    [Accept-Language] says. *)
Theorem request_language_spec (is_supported_language : string -> bool)
    (get_default_language : string) (header : string -> option string) :
  (is_supported_language
     (get_request_language is_supported_language get_default_language header) = true
   \/ get_request_language is_supported_language get_default_language header
      = get_default_language)
  /\ (forall custom_language,
        header "X-Language" = Some custom_language ->
        custom_language <> EmptyString ->
        is_supported_language custom_language = true ->
        get_request_language is_supported_language get_default_language header
        = custom_language).
Proof.
  unfold get_request_language. split.
  - assert (Haccept :
      is_supported_language
        (match header "Accept-Language" with
         | Some accept_language =>
             if negb (String.eqb accept_language EmptyString) then
               match first_supported_language is_supported_language
                       (str_split ","%char accept_language) with
               | Some lang_code => lang_code
               | None => get_default_language
               end
             else get_default_language
         | None => get_default_language
         end) = true
      \/ match header "Accept-Language" with
         | Some accept_language =>
             if negb (String.eqb accept_language EmptyString) then
               match first_supported_language is_supported_language
                       (str_split ","%char accept_language) with
               | Some lang_code => lang_code
               | None => get_default_language
               end
             else get_default_language
         | None => get_default_language
         end = get_default_language).
    { destruct (header "Accept-Language") as [a|]; [|right; reflexivity].
      destruct (negb (String.eqb a EmptyString)); [|right; reflexivity].
      destruct (first_supported_language is_supported_language (str_split ","%char a))
        as [c|] eqn:Hf; [|right; reflexivity].
      left. exact (first_supported_language_supported _ _ _ Hf). }
    destruct (header "X-Language") as [l|]; [|exact Haccept].
    destruct (negb (String.eqb l EmptyString) && is_supported_language l) eqn:Hc;
      [|exact Haccept].
    apply andb_prop in Hc. left. apply Hc.
  - intros l -> Hne Hs. rewrite Hs.
    destruct (String.eqb l EmptyString) eqn:He; [|reflexivity].
    apply String.eqb_eq in He. contradiction.
Qed.

Lemma request_language_spec_witness :
  get_request_language sample_supported "zh-CN"
    (sample_headers (Some "en-US") (Some "zh-TW,zh;q=0.9"))
  = "en-US".
Proof.
  destruct (request_language_spec sample_supported "zh-CN"
              (sample_headers (Some "en-US") (Some "zh-TW,zh;q=0.9"))) as (_ & H).
  apply (H "en-US"); [reflexivity|discriminate|reflexivity].
Defined.

(** ** X21 *)




(** ** X22 *)

(** X22.  A validator built with [cache_ttl] zero or negative never answers
    from a cache: as long as the clock does not run backwards past a stamp,
    no stamp is fresh, and in remote mode every [get_jwks] and every
    revocation check sends its request, also right after a fetch. *)
Theorem non_positive_ttl_disables_caching (w : World) (self : JWTLocalValidator)
    (tr : list event) (token : string) :
  cache_ttl self <= 0 ->
  (forall t, _jwks_cache_time self = Some t -> t <= utcnow w) ->
  (forall t, _blacklist_cache_time self = Some t -> t <= utcnow w) ->
  cache_is_valid w self (_jwks_cache_time self) = false
  /\ cache_is_valid w self (_blacklist_cache_time self) = false
  /\ (use_local self = false ->
      exists r self' rest,
        get_jwks w (self, tr)
        = (r, (self', (tr ++ HttpGet (jwks_url w self) :: rest)%list)))
  /\ (exists b self' rest,
        _is_token_blacklisted w token (self, tr)
        = (inr b, (self', (tr ++ HttpGet (blacklist_url w self) :: rest)%list))).
Proof.
  intros Httl Hj Hb.
  assert (Hstale : forall ct, (forall t, ct = Some t -> t <= utcnow w) ->
                              cache_is_valid w self ct = false).
  { intros [t|] Ht; [|reflexivity]. unfold cache_is_valid.
    apply Z.ltb_ge. specialize (Ht t eq_refl). nia. }
  split; [apply Hstale, Hj|]. split; [apply Hstale, Hb|]. split.
  - intros Hremote. apply get_jwks_stale_requests; [exact Hremote|apply Hstale, Hj].
  - destruct (is_token_blacklisted_stale_requests w self tr token (Hstale _ Hb))
      as (b & v & rest & H).
    exists b. eexists. exists rest. exact H.
Qed.

Lemma non_positive_ttl_disables_caching_witness :
  exists r self' rest,
    get_jwks (world_remote 1000 200 200 [] (inr alice_payload)) (validator_without_ttl, [])
    = (r, (self',
           HttpGet (jwks_url (world_remote 1000 200 200 [] (inr alice_payload))
                      validator_without_ttl) :: rest)).
Proof.
  destruct (non_positive_ttl_disables_caching
              (world_remote 1000 200 200 [] (inr alice_payload))
              validator_without_ttl [] "tok") as (_ & _ & H & _).
  - cbn. lia.
  - intros t Ht. injection Ht as <-. cbn. lia.
  - intros t Ht. discriminate Ht.
  - apply H. reflexivity.
Defined.
